(** * combine_data.py: combining datasets into one plot

    A shallow embedding of the notebook script [combine_data.py] and of
    the part of the numpy / matplotlib object model that the script
    drives: float64 and int64 arrays living in an object store, pyplot's
    figures with their axes, shared axis groups, lines, bars and legends.

    - float64 values are Rocq's primitive binary64 floats, so the
      arithmetic of the script ([years - 5.0], [inner_pop / 1.0e6], the
      bar edges) is evaluated with the rounding Python applies;
    - the transcendental functions of numpy ([np.sin], [np.sinh], ...)
      are left abstract (class [Libm]);
    - every call into numpy or matplotlib may raise: the state carries
      the fates of the upcoming library calls, and the exception monad
      [M] has no handler, as the script has none. *)

From Stdlib Require Import ZArith List Floats.PrimFloat Uint63 DecimalString.
From stdpp Require Import base list strings.
Import ListNotations.

Set Warnings "-inexact-float".
Local Open Scope Z_scope.

(** ** Numbers *)

(** Conversion of an int64 value ([- 2^63 <= z < 2^63]) to float64, rounded
    to nearest (exact below 2^53).  The magnitude of the least int64 does
    not fit the 63 bits of the unsigned conversion, so it is doubled from
    2^62. *)
Definition float_of_Z (z : Z) : float :=
  match z with
  | Z0 => PrimFloat.zero
  | Zpos _ => PrimFloat.of_uint63 (Uint63.of_Z z)
  | Zneg _ =>
      if (z =? - 2 ^ 63)%Z
      then PrimFloat.opp
             (PrimFloat.mul (PrimFloat.of_uint63 (Uint63.of_Z (2 ^ 62))) 2%float)
      else PrimFloat.opp (PrimFloat.of_uint63 (Uint63.of_Z (- z)))
  end.

Definition float_of_nat (n : nat) : float := float_of_Z (Z.of_nat n).

Definition fmin (a b : float) : float := if PrimFloat.ltb b a then b else a.
Definition fmax (a b : float) : float := if PrimFloat.ltb a b then b else a.

(** int64 arithmetic wraps around modulo 2^64 (two's complement). *)
Definition int64_wrap (z : Z) : Z := (z + 2 ^ 63) mod 2 ^ 64 - 2 ^ 63.
Definition int64_add (a b : Z) : Z := int64_wrap (a + b).

(** The elementary functions numpy takes from the C library. *)
Class Libm := {
  m_sin : float -> float;
  m_cos : float -> float;
  m_tan : float -> float;
  m_sinh : float -> float;
  m_cosh : float -> float;
  m_tanh : float -> float
}.

(** ** numpy arrays *)

Inductive ndarray :=
| I64 (a : list Z)
| F64 (a : list float).

Definition size (a : ndarray) : nat :=
  match a with I64 l => length l | F64 l => length l end.

(** [np.asarray(a, float)] *)
Definition as_float (a : ndarray) : list float :=
  match a with I64 l => map float_of_Z l | F64 l => l end.

(** [np.linspace(start, stop, num)], with the default [endpoint=True]:
    [arange(0, num) * step + start], the last sample overwritten by [stop]. *)
Definition linspace (start stop : float) (num : nat) : list float :=
  let div := (num - 1)%nat in
  let delta := PrimFloat.sub stop start in
  let y := map float_of_nat (seq 0 num) in
  let y :=
    if (0 <? div)%nat then
      let step := PrimFloat.div delta (float_of_nat div) in
      if PrimFloat.eqb step PrimFloat.zero
      then map (fun v => PrimFloat.mul (PrimFloat.div v (float_of_nat div)) delta) y
      else map (fun v => PrimFloat.mul v step) y
    else map (fun v => PrimFloat.mul v delta) y in
  let y := map (fun v => PrimFloat.add v start) y in
  if (1 <? num)%nat then <[(num - 1)%nat := stop]> y else y.

(** [np.arange(start, stop, step)] on integers, for a step that is not 0:
    [ceil((stop - start) / step)] elements [start + i * step]. *)
Definition arange (start stop step : Z) : list Z :=
  let n := Z.to_nat (- ((start - stop) / step)) in
  map (fun i => start + Z.of_nat i * step) (seq 0 n).

(** ** The literal data of the bar-plot cells (In[25]) *)

Module London.
Definition years : list Z := [1801; 1851; 1901; 1951; 2001].
Definition inner_pop : list Z := [879491; 1995846; 4670177; 3680821; 2765975].
Definition outer_pop : list Z := [131666; 290763; 1556317; 4483595; 4406061].
Definition greater_pop : list Z := [1011157; 2286609; 6226494; 8164416; 7172036].
End London.

(** ** matplotlib objects *)

(** View limits of an axis: left to autoscaling, or set by hand. *)
Inductive limits :=
| Auto
| Manual (lo hi : float).

(** What the axes of one share group have in common: the view limits and
    the tick locators.  Axes that do not share have a group of their own. *)
Record axis := {
  lim : limits;
  major_ticks : option (list float);
  minor_ticks : option (list float)
}.

Definition default_axis : axis :=
  {| lim := Auto; major_ticks := None; minor_ticks := None |}.

Record line2d := {
  xdata : list float;
  ydata : list float;
  line_label : option string;
  line_color : option string
}.

Record rectangle := {
  rect_x : float;
  rect_y : float;
  rect_width : float;
  rect_height : float
}.

Record barcontainer := {
  patches : list rectangle;
  bar_label : option string
}.

Record text := { txt : string; txt_color : option string }.

Record axes := {
  xgroup : nat;
  ygroup : nat;
  lines : list line2d;
  containers : list barcontainer;
  legend : option (list string);
  xlabel : option text;
  ylabel : option text;
  title : option string;
  ytick_labelcolor : option string
}.

Definition new_axes (xg yg : nat) : axes :=
  {| xgroup := xg; ygroup := yg; lines := []; containers := [];
     legend := None; xlabel := None; ylabel := None; title := None;
     ytick_labelcolor := None |}.

Record figure := {
  made_in : nat;
  fig_axes : list axes;
  xaxis : list axis;
  yaxis : list axis;
  suptitle : option string;
  tight : bool;
  closed : bool
}.

Definition empty_figure (c : nat) : figure :=
  {| made_in := c; fig_axes := []; xaxis := []; yaxis := []; suptitle := None;
     tight := false; closed := false |}.

(** A handle to an axes object: the figure (by its position among the
    figures made so far) and the position among its axes. *)
Record axref := { ax_fig : nat; ax_idx : nat }.

(** What a [print] call is handed.  The text written for it is the
    library's [repr] of the object and is not modelled. *)
Inductive printed :=
| PFigure (fig : nat)
| PAxes (a : axref)
| PAxesArray (g : list (list axref))
| PTypeOf (o : printed).

(** ** Exceptions, the interpreter state and the script monad *)

Record exn := { exn_class : string; exn_msg : string }.

Inductive outcome (A : Type) :=
| Ok (a : A)
| Raise (e : exn).
Arguments Ok {A} a.
Arguments Raise {A} e.

(** An array object of the store, with the notebook cell that created it. *)
Record obj := { owner : nat; value : ndarray }.

(** One library call that was handed arrays: the cell it is in, the
    function, and the arrays (references into the store). *)
Record use := { use_cell : nat; use_op : string; use_args : list nat }.

Record state := {
  heap : list obj;
  figs : list figure;
  gcf : option nat;
  cell : nat;
  uses : list use;
  stdout : list (list printed);
  fates : list (option exn);
  ncalls : nat
}.

Definition init (fs : list (option exn)) : state :=
  {| heap := []; figs := []; gcf := None; cell := 0%nat; uses := [];
     stdout := []; fates := fs; ncalls := 0%nat |}.

Definition with_heap (h : list obj) (s : state) : state :=
  {| heap := h; figs := figs s; gcf := gcf s; cell := cell s; uses := uses s;
     stdout := stdout s; fates := fates s; ncalls := ncalls s |}.
Definition with_figs (f : list figure) (s : state) : state :=
  {| heap := heap s; figs := f; gcf := gcf s; cell := cell s; uses := uses s;
     stdout := stdout s; fates := fates s; ncalls := ncalls s |}.
Definition with_gcf (g : option nat) (s : state) : state :=
  {| heap := heap s; figs := figs s; gcf := g; cell := cell s; uses := uses s;
     stdout := stdout s; fates := fates s; ncalls := ncalls s |}.
Definition with_cell (c : nat) (s : state) : state :=
  {| heap := heap s; figs := figs s; gcf := gcf s; cell := c; uses := uses s;
     stdout := stdout s; fates := fates s; ncalls := ncalls s |}.
Definition with_uses (u : list use) (s : state) : state :=
  {| heap := heap s; figs := figs s; gcf := gcf s; cell := cell s; uses := u;
     stdout := stdout s; fates := fates s; ncalls := ncalls s |}.
Definition with_stdout (o : list (list printed)) (s : state) : state :=
  {| heap := heap s; figs := figs s; gcf := gcf s; cell := cell s; uses := uses s;
     stdout := o; fates := fates s; ncalls := ncalls s |}.
Definition tick (s : state) : state :=
  {| heap := heap s; figs := figs s; gcf := gcf s; cell := cell s; uses := uses s;
     stdout := stdout s; fates := tail (fates s); ncalls := S (ncalls s) |}.

Definition M (A : Type) : Type := state -> outcome A * state.

Definition ret {A} (a : A) : M A := fun s => (Ok a, s).
Definition raise {A} (e : exn) : M A := fun s => (Raise e, s).
Definition bind {A B} (m : M A) (k : A -> M B) : M B := fun s =>
  match m s with
  | (Ok a, s') => k a s'
  | (Raise e, s') => (Raise e, s')
  end.

#[global] Instance M_ret : MRet M := @ret.
#[global] Instance M_bind : MBind M := fun A B k m => bind m k.

Definition get : M state := fun s => (Ok s, s).
Definition modify (f : state -> state) : M unit := fun s => (Ok tt, f s).

(** [for v in l: body(v)] *)
Fixpoint for_ {A} (l : list A) (body : A -> M unit) : M unit :=
  match l with
  | [] => ret tt
  | v :: l' => bind (body v) (fun _ => for_ l' body)
  end.

Definition range (n : nat) : list nat := seq 0 n.

(** A call into numpy or matplotlib.  The library may raise instead of
    returning: the head of [fates] is the fate of the call. *)
Definition extern {A} (body : M A) : M A := fun s =>
  match fates s with
  | Some e :: _ => (Raise e, tick s)
  | _ => body (tick s)
  end.

Definition ValueError (msg : string) : exn :=
  {| exn_class := "ValueError"; exn_msg := msg |}.
Definition IndexError (msg : string) : exn :=
  {| exn_class := "IndexError"; exn_msg := msg |}.
Definition ZeroDivisionError (msg : string) : exn :=
  {| exn_class := "ZeroDivisionError"; exn_msg := msg |}.
Definition ReferenceError (msg : string) : exn :=
  {| exn_class := "ReferenceError"; exn_msg := msg |}.

(** The text of the shape of a 1-D array, [(n,)], and of a number. *)
Definition nat_text (n : nat) : string := NilEmpty.string_of_uint (Nat.to_uint n).
Definition shape_text (n : nat) : string :=
  String.append "(" (String.append (nat_text n) ",)").

(** ** Field updates *)

Definition with_lim (l : limits) (a : axis) : axis :=
  {| lim := l; major_ticks := major_ticks a; minor_ticks := minor_ticks a |}.
Definition with_major (t : list float) (a : axis) : axis :=
  {| lim := lim a; major_ticks := Some t; minor_ticks := minor_ticks a |}.
Definition with_minor (t : list float) (a : axis) : axis :=
  {| lim := lim a; major_ticks := major_ticks a; minor_ticks := Some t |}.

Definition with_lines (l : list line2d) (a : axes) : axes :=
  {| xgroup := xgroup a; ygroup := ygroup a; lines := l;
     containers := containers a; legend := legend a; xlabel := xlabel a;
     ylabel := ylabel a; title := title a;
     ytick_labelcolor := ytick_labelcolor a |}.
Definition with_containers (c : list barcontainer) (a : axes) : axes :=
  {| xgroup := xgroup a; ygroup := ygroup a; lines := lines a;
     containers := c; legend := legend a; xlabel := xlabel a;
     ylabel := ylabel a; title := title a;
     ytick_labelcolor := ytick_labelcolor a |}.
Definition with_legend (l : list string) (a : axes) : axes :=
  {| xgroup := xgroup a; ygroup := ygroup a; lines := lines a;
     containers := containers a; legend := Some l; xlabel := xlabel a;
     ylabel := ylabel a; title := title a;
     ytick_labelcolor := ytick_labelcolor a |}.
Definition with_xlabel (t : text) (a : axes) : axes :=
  {| xgroup := xgroup a; ygroup := ygroup a; lines := lines a;
     containers := containers a; legend := legend a; xlabel := Some t;
     ylabel := ylabel a; title := title a;
     ytick_labelcolor := ytick_labelcolor a |}.
Definition with_ylabel (t : text) (a : axes) : axes :=
  {| xgroup := xgroup a; ygroup := ygroup a; lines := lines a;
     containers := containers a; legend := legend a; xlabel := xlabel a;
     ylabel := Some t; title := title a;
     ytick_labelcolor := ytick_labelcolor a |}.
Definition with_title (t : string) (a : axes) : axes :=
  {| xgroup := xgroup a; ygroup := ygroup a; lines := lines a;
     containers := containers a; legend := legend a; xlabel := xlabel a;
     ylabel := ylabel a; title := Some t;
     ytick_labelcolor := ytick_labelcolor a |}.
Definition with_ytick_labelcolor (c : string) (a : axes) : axes :=
  {| xgroup := xgroup a; ygroup := ygroup a; lines := lines a;
     containers := containers a; legend := legend a; xlabel := xlabel a;
     ylabel := ylabel a; title := title a; ytick_labelcolor := Some c |}.

Definition with_fig_axes (a : list axes) (f : figure) : figure :=
  {| made_in := made_in f; fig_axes := a; xaxis := xaxis f; yaxis := yaxis f;
     suptitle := suptitle f; tight := tight f; closed := closed f |}.
Definition with_xaxis (x : list axis) (f : figure) : figure :=
  {| made_in := made_in f; fig_axes := fig_axes f; xaxis := x; yaxis := yaxis f;
     suptitle := suptitle f; tight := tight f; closed := closed f |}.
Definition with_yaxis (y : list axis) (f : figure) : figure :=
  {| made_in := made_in f; fig_axes := fig_axes f; xaxis := xaxis f; yaxis := y;
     suptitle := suptitle f; tight := tight f; closed := closed f |}.
Definition with_suptitle (t : string) (f : figure) : figure :=
  {| made_in := made_in f; fig_axes := fig_axes f; xaxis := xaxis f; yaxis := yaxis f;
     suptitle := Some t; tight := tight f; closed := closed f |}.
Definition with_tight (f : figure) : figure :=
  {| made_in := made_in f; fig_axes := fig_axes f; xaxis := xaxis f; yaxis := yaxis f;
     suptitle := suptitle f; tight := true; closed := closed f |}.
Definition with_closed (f : figure) : figure :=
  {| made_in := made_in f; fig_axes := fig_axes f; xaxis := xaxis f; yaxis := yaxis f;
     suptitle := suptitle f; tight := tight f; closed := true |}.

(** ** The object store *)

Definition alloc (a : ndarray) : M nat := fun s =>
  (Ok (length (heap s)),
   with_heap (heap s ++ [{| owner := cell s; value := a |}]) s).

Definition deref (r : nat) : M ndarray := fun s =>
  match heap s !! r with
  | Some o => (Ok (value o), s)
  | None => (Raise (ReferenceError "no such array"), s)
  end.

Definition log_use (op : string) (args : list nat) : M unit :=
  modify (fun s =>
    with_uses (uses s ++ [{| use_cell := cell s; use_op := op; use_args := args |}]) s).

(** Python's [l[i]] on a list (non-negative index). *)
Definition index {A} (l : list A) (i : nat) : M A :=
  match l !! i with
  | Some v => ret v
  | None => raise (IndexError "list index out of range")
  end.

(** [print(...)]: the builtin; [stdout] records the objects of each call. *)
Definition py_print (args : list printed) : M unit :=
  modify (fun s => with_stdout (stdout s ++ [args]) s).

(** [get_ipython().run_line_magic('matplotlib', 'inline')] selects the
    inline backend: [plt.show()] renders the open figures and closes them. *)
Definition run_line_magic (name arg : string) : M unit := extern (ret tt).

(** ** numpy *)

Section Numpy.
Context `{Libm}.

Definition np_array (l : list Z) : M nat := extern (alloc (I64 l)).

Definition np_linspace (start stop : float) (num : nat) : M nat :=
  extern (alloc (F64 (linspace start stop num))).

Definition np_arange (start stop step : Z) : M nat :=
  extern (if decide (step = 0)
          then raise (ZeroDivisionError "division by zero")
          else alloc (I64 (arange start stop step))).

(** A unary ufunc returns a new float64 array. *)
Definition ufunc (name : string) (f : float -> float) (r : nat) : M nat :=
  extern (a ← deref r; log_use name [r];; alloc (F64 (map f (as_float a)))).

Definition np_sin := ufunc "sin" m_sin.
Definition np_cos := ufunc "cos" m_cos.
Definition np_tan := ufunc "tan" m_tan.
Definition np_sinh := ufunc "sinh" m_sinh.
Definition np_cosh := ufunc "cosh" m_cosh.
Definition np_tanh := ufunc "tanh" m_tanh.

(** [a - c], [a + c] and [a / c] for an array [a] and a Python float
    [c]: a new float64 array, the operand is not changed. *)
Definition array_sub (r : nat) (c : float) : M nat :=
  ufunc "subtract" (fun v => PrimFloat.sub v c) r.
Definition array_add (r : nat) (c : float) : M nat :=
  ufunc "add" (fun v => PrimFloat.add v c) r.
Definition array_div (r : nat) (c : float) : M nat :=
  ufunc "true_divide" (fun v => PrimFloat.div v c) r.
End Numpy.

(** ** matplotlib *)

Definition get_fig (i : nat) : M figure := fun s =>
  match figs s !! i with
  | Some f => (Ok f, s)
  | None => (Raise (ReferenceError "no such figure"), s)
  end.

Definition modify_fig (i : nat) (g : figure -> figure) : M unit :=
  _ ← get_fig i; modify (fun s => with_figs (alter g i (figs s)) s).

Definition get_axes (a : axref) : M axes :=
  f ← get_fig (ax_fig a);
  match fig_axes f !! ax_idx a with
  | Some ax => ret ax
  | None => raise (ReferenceError "no such axes")
  end.

Definition modify_axes (a : axref) (g : axes -> axes) : M unit :=
  _ ← get_axes a;
  modify_fig (ax_fig a) (fun f => with_fig_axes (alter g (ax_idx a) (fig_axes f)) f).

(** The view limits an axes object reports: those of its share groups. *)
Definition get_xlim (f : figure) (ax : axes) : option limits :=
  lim <$> xaxis f !! xgroup ax.
Definition get_ylim (f : figure) (ax : axes) : option limits :=
  lim <$> yaxis f !! ygroup ax.
Definition get_xticks (f : figure) (ax : axes) : option (option (list float) * option (list float)) :=
  (fun a => (major_ticks a, minor_ticks a)) <$> xaxis f !! xgroup ax.

(** A new figure becomes pyplot's current figure; it remembers the cell
    that made it. *)
Definition new_figure : M nat := fun s =>
  (Ok (length (figs s)),
   with_gcf (Some (length (figs s)))
     (with_figs (figs s ++ [empty_figure (cell s)]) s)).

(** [plt.figure()] *)
Definition plt_figure : M nat := extern new_figure.

(** The open figure made last.  Figures become active when they are made
    (the script never goes back to an earlier one), so this is the open
    figure that was active most recently. *)
Definition last_open (fs : list figure) : option nat :=
  last (List.filter
          (fun i => match fs !! i with
                    | Some f => negb (closed f)
                    | None => false
                    end)
          (seq 0 (length fs))).

(** [plt.close()] closes the current figure; the open figure that was
    active before it, if there is one, is current again. *)
Definition plt_close : M unit :=
  extern (s ← get;
          match gcf s with
          | Some i =>
              modify_fig i with_closed;;
              modify (fun s => with_gcf (last_open (figs s)) s)
          | None => ret tt
          end).

(** [plt.show()] under the inline backend: every figure is rendered and
    closed, no figure is current afterwards. *)
Definition plt_show : M unit :=
  extern (modify (fun s => with_gcf None (with_figs (map with_closed (figs s)) s))).

Inductive share := ShareNone | ShareAll | ShareRow | ShareCol.

Definition share_group (sh : share) (ncols r c : nat) : nat :=
  match sh with
  | ShareAll => 0
  | ShareRow => r
  | ShareCol => c
  | ShareNone => r * ncols + c
  end%nat.

Definition share_groups (sh : share) (nrows ncols : nat) : nat :=
  match sh with
  | ShareAll => 1
  | ShareRow => nrows
  | ShareCol => ncols
  | ShareNone => nrows * ncols
  end%nat.

Definition grid {A} (nrows ncols : nat) (f : nat -> nat -> A) : list (list A) :=
  map (fun r => map (fun c => f r c) (range ncols)) (range nrows).

(** [plt.subplots(nrows, ncols, sharex=..., sharey=...)]: a new figure with
    a grid of axes, row by row, and the 2-D array of their handles. *)
Definition plt_subplots (nrows ncols : nat) (sharex sharey : share)
  : M (nat * list (list axref)) :=
  extern (
    fig ← new_figure;
    modify_fig fig (fun f =>
      with_fig_axes
        (concat (grid nrows ncols (fun r c =>
           new_axes (share_group sharex ncols r c) (share_group sharey ncols r c))))
        (with_xaxis (replicate (share_groups sharex nrows ncols) default_axis)
        (with_yaxis (replicate (share_groups sharey nrows ncols) default_axis) f)));;
    ret (fig, grid nrows ncols (fun r c =>
                {| ax_fig := fig; ax_idx := (r * ncols + c)%nat |}))).

(** [plt.subplots()]: one axes, and [squeeze] hands out the axes itself. *)
Definition plt_subplots_default : M (nat * axref) :=
  '(fig, g) ← plt_subplots 1 1 ShareNone ShareNone;
  row ← index g 0%nat;
  ax ← index row 0%nat;
  ret (fig, ax).

(** [axes[r, c]] *)
Definition item (g : list (list axref)) (r c : nat) : M axref :=
  row ← index g r; index row c.

(** [ax.twinx()]: a new axes in the same figure that shares the x axis of
    [ax] and has a y axis of its own. *)
Definition ax_twinx (a : axref) : M axref :=
  extern (
    ax ← get_axes a;
    f ← get_fig (ax_fig a);
    modify_fig (ax_fig a) (fun f =>
      with_fig_axes (fig_axes f ++ [new_axes (xgroup ax) (length (yaxis f))])
        (with_yaxis (yaxis f ++ [default_axis]) f));;
    ret {| ax_fig := ax_fig a; ax_idx := length (fig_axes f) |}).

(** [ax.set_xlim(lo, hi)], [ax.set_ylim(lo, hi)]: the limits belong to the
    share group, so every axes of the group sees them; autoscaling of the
    axis is switched off. *)
Definition ax_set_xlim (a : axref) (lo hi : float) : M unit :=
  extern (
    ax ← get_axes a;
    modify_fig (ax_fig a) (fun f =>
      with_xaxis (alter (with_lim (Manual lo hi)) (xgroup ax) (xaxis f)) f)).

Definition ax_set_ylim (a : axref) (lo hi : float) : M unit :=
  extern (
    ax ← get_axes a;
    modify_fig (ax_fig a) (fun f =>
      with_yaxis (alter (with_lim (Manual lo hi)) (ygroup ax) (yaxis f)) f)).

(** Setting ticks widens limits that were set by hand so that they
    contain the ticks ([set_view_interval(min(ticks), max(ticks))]). *)
Definition widen (ticks : list float) (l : limits) : limits :=
  match l, ticks with
  | Manual lo hi, t :: ts =>
      let vmin := foldl fmin t ts in
      let vmax := foldl fmax t ts in
      if PrimFloat.ltb lo hi
      then Manual (fmin (fmin vmin vmax) lo) (fmax (fmax vmin vmax) hi)
      else Manual (fmax (fmax vmin vmax) lo) (fmin (fmin vmin vmax) hi)
  | _, _ => l
  end.

(** [ax.set_xticks(ticks, minor=...)]: the locator is shared by the group. *)
Definition ax_set_xticks (a : axref) (r : nat) (minor : bool) : M unit :=
  extern (
    ax ← get_axes a;
    t ← deref r;
    log_use "set_xticks" [r];;
    let ticks := as_float t in
    modify_fig (ax_fig a) (fun f =>
      with_xaxis
        (alter (fun x => (if minor then with_minor ticks else with_major ticks)
                           (with_lim (widen ticks (lim x)) x))
               (xgroup ax) (xaxis f)) f)).

Definition ax_set_xlabel (a : axref) (s : string) (color : option string) : M unit :=
  extern (modify_axes a (with_xlabel {| txt := s; txt_color := color |})).

Definition ax_set_ylabel (a : axref) (s : string) (color : option string) : M unit :=
  extern (modify_axes a (with_ylabel {| txt := s; txt_color := color |})).

(** [ax.tick_params(axis='y', labelcolor=c)] *)
Definition ax_tick_params_y (a : axref) (labelcolor : string) : M unit :=
  extern (modify_axes a (with_ytick_labelcolor labelcolor)).

(** The exception of [plot] for arrays of different lengths. *)
Definition plot_mismatch (x y : ndarray) : exn :=
  ValueError
    (String.append "x and y must have same first dimension, but have shapes "
       (String.append (shape_text (size x))
          (String.append " and " (shape_text (size y))))).

(** [ax.plot(x, y, label=..., color=...)]: one more line on the axes.
    Limits set by hand stay; limits left on [Auto] stay on [Auto]. *)
Definition ax_plot (a : axref) (xr yr : nat) (label color : option string) : M unit :=
  extern (
    x ← deref xr;
    y ← deref yr;
    log_use "plot" [xr; yr];;
    if decide (size x = size y) then
      modify_axes a (fun ax =>
        with_lines (lines ax ++ [{| xdata := as_float x; ydata := as_float y;
                                    line_label := label; line_color := color |}]) ax)
    else raise (plot_mismatch x y)).

(** A label is listed in a legend unless it is empty or starts with an
    underscore. *)
Definition in_legend (l : string) : bool :=
  match l with
  | EmptyString => false
  | String _ _ => negb (String.prefix "_" l)
  end.

(** The entries of a legend: the labels of the labelled artists of the
    axes, lines before bar series. *)
Definition legend_entries (ax : axes) : list string :=
  List.filter in_legend
    (omap line_label (lines ax) ++ omap bar_label (containers ax)).

(** [ax.legend()] *)
Definition ax_legend (a : axref) : M unit :=
  extern (modify_axes a (fun ax => with_legend (legend_entries ax) ax)).

(** [fig.tight_layout()], [fig.suptitle(t)] *)
Definition fig_tight_layout (fig : nat) : M unit :=
  extern (modify_fig fig with_tight).
Definition fig_suptitle (fig : nat) (t : string) : M unit :=
  extern (modify_fig fig (with_suptitle t)).

(** *** The pyplot state machine *)

(** [plt.gca()]: the current axes of the current figure; a figure or an
    axes is made when there is none. *)
Definition gca : M axref :=
  s ← get;
  fig ← match gcf s with Some i => ret i | None => new_figure end;
  f ← get_fig fig;
  match fig_axes f with
  | [] =>
      modify_fig fig (fun f =>
        with_fig_axes [new_axes (length (xaxis f)) (length (yaxis f))]
          (with_xaxis (xaxis f ++ [default_axis])
          (with_yaxis (yaxis f ++ [default_axis]) f)));;
      ret {| ax_fig := fig; ax_idx := 0 |}
  | _ => ret {| ax_fig := fig; ax_idx := (length (fig_axes f) - 1)%nat |}
  end.

(** numpy's broadcast of 1-D operands, taken in argument order as pairs
    (position of the argument, length): a length of 1 stretches; the
    first other length becomes the length of the result ([dim], fixed by
    argument [src]); an operand of yet another length is a mismatch,
    reported together with the argument that fixed the length. *)
Fixpoint broadcast_scan (dim src : nat) (args : list (nat * nat))
  : nat + (nat * nat) * (nat * nat) :=
  match args with
  | [] => inl dim
  | (j, n) :: rest =>
      if decide (n = 1%nat) then broadcast_scan dim src rest
      else if decide (dim = 1%nat) then broadcast_scan n j rest
      else if decide (dim = n) then broadcast_scan dim src rest
      else inr ((src, dim), (j, n))
  end.

(** The operands of the broadcast in [bar]: [x] is argument 0, [height]
    argument 1 and the bottom argument 3 (the scalar [width] is 2). *)
Definition bar_operands (x height bottom : list float) : list (nat * nat) :=
  [(0, length x); (1, length height); (3, length bottom)]%nat.

Definition broadcast_to (n : nat) (l : list float) : list float :=
  match l with
  | [v] => replicate n v
  | _ => l
  end.

(** The first finite element of an array, or its first element when none
    is finite. *)
Definition first_finite (l : list float) : option float :=
  match List.filter PrimFloat.is_finite l with
  | v :: _ => Some v
  | [] => head l
  end.

(** matplotlib's [_convert_dx]: an extent [d] measured from positions [x]
    becomes [(x0 + d) - x0] for the first finite position [x0]; with no
    position it stays as it is. *)
Definition convert_dx (dx x : list float) : list float :=
  match first_finite x with
  | Some x0 => map (fun d => PrimFloat.sub (PrimFloat.add x0 d) x0) dx
  | None => dx
  end.

Definition convert_width (width : float) (x : list float) : float :=
  match first_finite x with
  | Some x0 => PrimFloat.sub (PrimFloat.add x0 width) x0
  | None => width
  end.

(** The rectangles of [bar(x, height, width, bottom)] with the default
    [align='center'].  The width and the heights first go through
    [_convert_dx]; then the operands are broadcast, and the bar of [x]
    starts at [x - width/2] and at [bottom]. *)
Definition bar_rectangles (x height bottom : list float) (width : float)
  : option (list rectangle) :=
  let w := convert_width width x in
  let hs := convert_dx height bottom in
  match broadcast_scan 1 0 (bar_operands x hs bottom) with
  | inr _ => None
  | inl n =>
      Some (zip_with
              (fun xb h =>
                 {| rect_x := PrimFloat.sub (fst xb) (PrimFloat.div w 2);
                    rect_y := snd xb;
                    rect_width := w;
                    rect_height := h |})
              (zip (broadcast_to n x) (broadcast_to n bottom))
              (broadcast_to n hs))
  end.

(** The text numpy gives for operands that do not broadcast. *)
Definition broadcast_message (x height bottom : list float) : string :=
  match broadcast_scan 1 0 (bar_operands x height bottom) with
  | inr ((i, n), (j, m)) =>
      String.append
        "shape mismatch: objects cannot be broadcast to a single shape.  Mismatch is between arg "
        (String.append (nat_text i)
        (String.append " with shape "
        (String.append (shape_text n)
        (String.append " and arg "
        (String.append (nat_text j)
        (String.append " with shape "
        (String.append (shape_text m) ".")))))))
  | inl _ => ""
  end.

Definition rect_right (r : rectangle) : float :=
  PrimFloat.add (rect_x r) (rect_width r).
Definition rect_top (r : rectangle) : float :=
  PrimFloat.add (rect_y r) (rect_height r).

(** [plt.bar(x, height, width=w, bottom=b, label=l)] on the current axes;
    [bottom] defaults to the scalar 0.  The rectangles are kept in
    float64, the arithmetic of [bar] as soon as the width or one of
    height and bottom is a float, as in every call of the script. *)
Definition plt_bar (xr hr : nat) (width : float) (bottom : option nat)
  (label : option string) : M unit :=
  extern (
    a ← gca;
    x ← deref xr;
    h ← deref hr;
    b ← match bottom with
        | Some br => v ← deref br; ret (as_float v)
        | None => ret [PrimFloat.zero]
        end;
    log_use "bar" (xr :: hr :: option_list bottom);;
    match bar_rectangles (as_float x) (as_float h) b width with
    | Some rs =>
        modify_axes a (fun ax =>
          with_containers (containers ax ++ [{| patches := rs; bar_label := label |}]) ax)
    | None =>
        raise (ValueError (broadcast_message (as_float x) (as_float h) b))
    end).

Definition plt_title (t : string) : M unit :=
  extern (a ← gca; modify_axes a (with_title t)).
Definition plt_xlabel (t : string) : M unit :=
  extern (a ← gca; modify_axes a (with_xlabel {| txt := t; txt_color := None |})).
Definition plt_ylabel (t : string) : M unit :=
  extern (a ← gca; modify_axes a (with_ylabel {| txt := t; txt_color := None |})).
Definition plt_legend : M unit :=
  extern (a ← gca; modify_axes a (fun ax => with_legend (legend_entries ax) ax)).

(** ** The script, cell by cell *)

(** The statements of a cell run with [cell] set to the cell's number. *)
Definition in_cell {A} (n : nat) (m : M A) : M A :=
  modify (with_cell n);; m.

(** The names of the module namespace that hold arrays, figures or axes
    when the script ends. *)
Record namespace := {
  v_ax1 : axref;
  v_ax2 : axref;
  v_fig : nat;
  v_axes : list (list axref);
  v_x : nat;
  v_t : nat;
  v_funcs : list (list nat);
  v_labels : list (list string);
  v_years : nat;
  v_inner_pop : nat;
  v_outer_pop : nat;
  v_greater_pop : nat;
  v_iyears : nat;
  v_oyears : nat
}.

Section Script.
Context `{Libm}.

(** In[19] *)
Definition In19 : M unit :=
  run_line_magic "matplotlib" "inline";;
  fig ← plt_figure;
  py_print [PFigure fig; PTypeOf (PFigure fig)];;
  plt_close.

(** In[20] *)
Definition In20 : M unit :=
  '(fig, ax) ← plt_subplots_default;
  py_print [PFigure fig; PTypeOf (PFigure fig)];;
  py_print [PAxes ax; PTypeOf (PAxes ax)];;
  plt_show.

(** In[21]: one plot with two y axes *)
Definition In21 : M (nat * nat * nat * axref * axref) :=
  x ← np_linspace (-10.0) 10.0 1000;
  sinh ← np_sinh x;
  sin ← np_sin x;
  '(fig, ax1) ← plt_subplots_default;
  let color := "red" in
  ax_set_xlabel ax1 "x" None;;
  ax_set_ylabel ax1 "sinh(x)" (Some color);;
  ax_plot ax1 x sinh None (Some color);;
  ax_tick_params_y ax1 color;;
  ax2 ← ax_twinx ax1;
  let color := "blue" in
  ax_set_ylabel ax2 "sin(x)" (Some color);;
  ax_plot ax2 x sin None (Some "blue");;
  ax_tick_params_y ax2 color;;
  ax_set_ylim ax2 (-1.0) 1.0;;
  fig_tight_layout fig;;
  plt_show;;
  ret (x, sinh, sin, ax1, ax2).

(** In[22] *)
Definition In22 : M unit :=
  '(fig, axes) ← plt_subplots 2 3 ShareNone ShareNone;
  py_print [PAxesArray axes];;
  a ← item axes 1 1;
  ax_set_xlim a (float_of_Z (-10)) (float_of_Z 10);;
  plt_show.

(** In[23] *)
Definition In23 (x sin : nat) : M unit :=
  '(fig, axes) ← plt_subplots 2 3 ShareNone ShareNone;
  py_print [PAxesArray axes];;
  ax_bl ← item axes 1 0;
  ax_set_xlim ax_bl (-10.0) 10.0;;
  ax_set_ylim ax_bl (-1.05) 1.05;;
  ax_plot ax_bl x sin None None;;
  plt_show.

(** Plots one subplot with label using the axes object ax. *)
Definition one_sub (ax : axref) (x y : nat) (label : string) : M unit :=
  ax_plot ax x y (Some label) None;;
  ax_legend ax.

(** In[24]: the 2x3 grid with shared axes *)
Definition In24 (x : nat)
  : M (nat * list (list axref) * nat * list (list nat) * list (list string)) :=
  t ← np_linspace (-10.0) 10.0 1000;
  sin ← np_sin t;
  sinh ← np_sinh t;
  cos ← np_cos t;
  cosh ← np_cosh t;
  tan ← np_tan t;
  tanh ← np_tanh t;
  let funcs := [[sinh; cosh; tanh]; [sin; cos; tan]] in
  let labels := [["sinh"; "cosh"; "tanh"]; ["sin"; "cos"; "tan"]] in
  '(fig, axes) ← plt_subplots 2 3 ShareAll ShareRow;
  a ← item axes 1 1;
  ax_set_xlim a (-10.0) 10.0;;
  a ← item axes 0 1;
  ax_set_ylim a (-1.0e4) 1.0e4;;
  a ← item axes 1 1;
  ax_set_ylim a (-2.0) 2.0;;
  a ← item axes 0 0;
  ticks ← np_arange (-10) 11 5;
  ax_set_xticks a ticks false;;
  a ← item axes 0 0;
  ticks ← np_arange (-10) 11 1;
  ax_set_xticks a ticks true;;
  let iy := 0%nat in
  for_ (range 3) (fun ix =>
    a ← item axes iy ix;
    frow ← index funcs iy;
    y ← index frow ix;
    lrow ← index labels iy;
    l ← index lrow ix;
    one_sub a x y l);;
  let iy := 1%nat in
  for_ (range 3) (fun ix =>
    a ← item axes iy ix;
    frow ← index funcs iy;
    y ← index frow ix;
    lrow ← index labels iy;
    l ← index lrow ix;
    one_sub a x y l);;
  fig_suptitle fig "hyberbolic and trigonometric functions";;
  a ← item axes 1 0;
  ax_set_xlabel a "x" None;;
  a ← item axes 1 1;
  ax_set_xlabel a "x" None;;
  a ← item axes 1 2;
  ax_set_xlabel a "x" None;;
  a ← item axes 1 0;
  ax_set_ylabel a "f(x)" None;;
  a ← item axes 0 0;
  ax_set_ylabel a "f(x)" None;;
  ret (fig, axes, t, funcs, labels).

(** In[25]: the population data *)
Definition In25 : M (nat * nat * nat * nat) :=
  years ← np_array London.years;
  inner_pop ← np_array London.inner_pop;
  outer_pop ← np_array London.outer_pop;
  greater_pop ← np_array London.greater_pop;
  inner_pop ← array_div inner_pop 1.0e6;
  outer_pop ← array_div outer_pop 1.0e6;
  ret (years, inner_pop, outer_pop, greater_pop).

(** In[26]: bars side by side *)
Definition In26 (years inner_pop outer_pop : nat) : M (nat * nat) :=
  _ ← plt_figure;
  iyears ← array_sub years 5.0;
  plt_bar iyears inner_pop 7.0 None (Some "inner");;
  oyears ← array_add years 5.0;
  plt_bar oyears outer_pop 7.0 None (Some "outer");;
  plt_title "Population of London";;
  plt_xlabel "year";;
  plt_ylabel "population (millions)";;
  plt_legend;;
  plt_show;;
  ret (iyears, oyears).

(** In[27]: bars stacked *)
Definition In27 (years inner_pop outer_pop : nat) : M unit :=
  _ ← plt_figure;
  plt_bar years inner_pop 10.0 None (Some "inner");;
  plt_bar years outer_pop 10.0 (Some inner_pop) (Some "outer");;
  plt_title "Population of London";;
  plt_xlabel "year";;
  plt_ylabel "population (millions)";;
  plt_legend;;
  plt_show.

Definition script : M namespace :=
  in_cell 19 In19;;
  in_cell 20 In20;;
  '(x, sinh, sin, ax1, ax2) ← in_cell 21 In21;
  in_cell 22 In22;;
  in_cell 23 (In23 x sin);;
  '(fig, axes, t, funcs, labels) ← in_cell 24 (In24 x);
  '(years, inner_pop, outer_pop, greater_pop) ← in_cell 25 In25;
  '(iyears, oyears) ← in_cell 26 (In26 years inner_pop outer_pop);
  in_cell 27 (In27 years inner_pop outer_pop);;
  ret {| v_ax1 := ax1; v_ax2 := ax2; v_fig := fig; v_axes := axes;
         v_x := x; v_t := t; v_funcs := funcs; v_labels := labels;
         v_years := years; v_inner_pop := inner_pop;
         v_outer_pop := outer_pop; v_greater_pop := greater_pop;
         v_iyears := iyears; v_oyears := oyears |}.

(** The state the notebook ends in when no library call raises. *)
Definition final : state := snd (script (init [])).
End Script.

(** ** Reading the final state *)

(** The figure a cell made (the first one, if it made several). *)
Definition figure_of (c : nat) (s : state) : option figure :=
  List.find (fun f => Nat.eqb (made_in f) c) (figs s).

(** The contents of an array of the store, as float64. *)
Definition array_of (r : nat) (s : state) : list float :=
  match heap s !! r with
  | Some o => as_float (value o)
  | None => []
  end.

(** The rectangles of the bar series with a given label. *)
Definition bars_of (label : string) (f : figure) : list rectangle :=
  flat_map (fun ax =>
    flat_map (fun c => if decide (bar_label c = Some label) then patches c else [])
             (containers ax)) (fig_axes f).

(** The axes object behind a handle. *)
Definition axes_at (a : axref) (s : state) : option axes :=
  match figs s !! ax_fig a with
  | Some f => fig_axes f !! ax_idx a
  | None => None
  end.

(** A sample instance of the C library, for closed examples; every
    theorem below holds for all instances. *)
Definition sample_libm : Libm :=
  {| m_sin := fun v => v; m_cos := fun v => v; m_tan := fun v => v;
     m_sinh := fun v => v; m_cosh := fun v => v; m_tanh := fun v => v |}.

(** The rectangles of the bar series [label] in the figure of cell [c]. *)
Definition bars_in (c : nat) (label : string) (s : state) : list rectangle :=
  match figure_of c s with
  | Some f => bars_of label f
  | None => []
  end.

(** [a / 1.0e6] on the literal population counts. *)
Definition millions (l : list Z) : list float :=
  map (fun n => PrimFloat.div (float_of_Z n) 1.0e6) l.

(** The namespace the script ends with: references are positions in the
    store and in the list of figures, in order of creation. *)
Definition names : namespace :=
  {| v_ax1 := {| ax_fig := 2; ax_idx := 0 |};
     v_ax2 := {| ax_fig := 2; ax_idx := 1 |};
     v_fig := 5%nat;
     v_axes := grid 2 3 (fun r c => {| ax_fig := 5; ax_idx := (r * 3 + c)%nat |});
     v_x := 0%nat;
     v_t := 3%nat;
     v_funcs := [[5; 7; 9]; [4; 6; 8]]%nat;
     v_labels := [["sinh"; "cosh"; "tanh"]; ["sin"; "cos"; "tan"]];
     v_years := 12%nat;
     v_inner_pop := 16%nat;
     v_outer_pop := 17%nat;
     v_greater_pop := 15%nat;
     v_iyears := 18%nat;
     v_oyears := 19%nat |}.

(** [g[iy][ix]] as a partial function. *)
Definition grid_item {A} (g : list (list A)) (iy ix : nat) : option A :=
  match g !! iy with
  | Some row => row !! ix
  | None => None
  end.

(** [ax.get_xlim()], [ax.get_ylim()] and the x ticks, through a handle. *)
Definition ax_get_xlim (a : axref) (s : state) : option limits :=
  match figs s !! ax_fig a with
  | Some f =>
      match fig_axes f !! ax_idx a with
      | Some ax => get_xlim f ax
      | None => None
      end
  | None => None
  end.

Definition ax_get_ylim (a : axref) (s : state) : option limits :=
  match figs s !! ax_fig a with
  | Some f =>
      match fig_axes f !! ax_idx a with
      | Some ax => get_ylim f ax
      | None => None
      end
  | None => None
  end.

Definition ax_get_xticks (a : axref) (s : state)
  : option (option (list float) * option (list float)) :=
  match figs s !! ax_fig a with
  | Some f =>
      match fig_axes f !! ax_idx a with
      | Some ax => get_xticks f ax
      | None => None
      end
  | None => None
  end.

Definition lines_at (a : axref) (s : state) : list line2d :=
  match axes_at a s with
  | Some ax => lines ax
  | None => []
  end.

Definition legend_at (a : axref) (s : state) : option (list string) :=
  match axes_at a s with
  | Some ax => legend ax
  | None => None
  end.

(** The points a line is drawn through. *)
Definition points (l : line2d) : list (float * float) :=
  zip (xdata l) (ydata l).

(** The functions behind [funcs], laid out like [funcs]. *)
Definition functions `{Libm} : list (list (float -> float)) :=
  [[m_sinh; m_cosh; m_tanh]; [m_sin; m_cos; m_tan]].

(** The sizes of the arrays a logged call was handed. *)
Definition arg_sizes (s : state) (u : use) : list (option nat) :=
  map (fun r => (fun o => size (value o)) <$> heap s !! r) (use_args u).

Definition uses_of (op : string) (s : state) : list use :=
  filter (fun u => use_op u = op) (uses s).

(** ** Examples and the arrays they touch *)

(** The four example charts of the notebook.  The other cells (In[19],
    In[20], and In[25], which only builds the population data) draw none
    of them. *)
Inductive chart := DualAxis | SharedGrid | GroupedBars | StackedBars.

#[global] Instance chart_eq_dec : EqDecision chart.
Proof. solve_decision. Defined.







(** An action never changes an array that exists: it can only add arrays
    to the store. *)
Definition heap_grows {A} (m : M A) : Prop :=
  forall s, heap s `prefix_of` heap (snd (m s)).

(** The number of library calls the script makes. *)
Definition script_calls : nat := 85.

(** ** Helpers for the statements about single cells *)

Definition add_line (x y : ndarray) (label color : option string) (ax : axes) : axes :=
  with_lines (lines ax ++ [{| xdata := as_float x; ydata := as_float y;
                              line_label := label; line_color := color |}]) ax.

Definition with_own_legend (ax : axes) : axes := with_legend (legend_entries ax) ax.

Definition plot_use (s : state) (xr yr : nat) : use :=
  {| use_cell := cell s; use_op := "plot"; use_args := [xr; yr] |}.
#[global] Instance axref_eq_dec : EqDecision axref.
Proof. solve_decision. Defined.

(** The figure a bar-plot cell leaves behind: one axes holding the bar
    series, with the title, the axis labels and the legend of the cell. *)
Definition bar_axes (series : list barcontainer) : axes :=
  {| xgroup := 0; ygroup := 0; lines := []; containers := series;
     legend := Some (List.filter in_legend (omap bar_label series));
     xlabel := Some {| txt := "year"; txt_color := None |};
     ylabel := Some {| txt := "population (millions)"; txt_color := None |};
     title := Some "Population of London";
     ytick_labelcolor := None |}.

Definition bar_figure (c : nat) (series : list barcontainer) : figure :=
  {| made_in := c; fig_axes := [bar_axes series];
     xaxis := [default_axis]; yaxis := [default_axis];
     suptitle := None; tight := false; closed := true |}.

Definition bar_use (s : state) (args : list nat) : use :=
  {| use_cell := cell s; use_op := "bar"; use_args := args |}.

Definition ticks (n : nat) (s : state) : state := Nat.iter n tick s.

(** What [gca] does to the current figure: an axes is made if there is none. *)
Definition ensure_axes (f : figure) : figure :=
  match fig_axes f with
  | [] => with_fig_axes [new_axes (length (xaxis f)) (length (yaxis f))]
            (with_xaxis (xaxis f ++ [default_axis])
            (with_yaxis (yaxis f ++ [default_axis]) f))
  | _ => f
  end.

(** A change of the current axes of a figure. *)
Definition on_current_axes (g : axes -> axes) (f : figure) : figure :=
  let f' := ensure_axes f in
  with_fig_axes (alter g (length (fig_axes f') - 1)%nat (fig_axes f')) f'.

Definition add_bars (rs : list rectangle) (label : option string) (ax : axes) : axes :=
  with_containers (containers ax ++ [{| patches := rs; bar_label := label |}]) ax.

(** The values of [bottom]: the array handed over, or the scalar 0. *)
Definition bottom_values (s : state) (bottom : option nat) : option (list float) :=
  match bottom with
  | Some br => (fun o => as_float (value o)) <$> heap s !! br
  | None => Some [PrimFloat.zero]
  end.

(** An array made by the cell that runs in [s]. *)
Definition fresh (s : state) (a : list float) : obj :=
  {| owner := cell s; value := F64 a |}.

Definition ufunc_use (s : state) (name : string) (r : nat) : use :=
  {| use_cell := cell s; use_op := name; use_args := [r] |}.

(** The figure [plt.subplots] makes in cell [c]. *)
Definition subplots_figure (c nrows ncols : nat) (sharex sharey : share) : figure :=
  {| made_in := c;
     fig_axes := concat (grid nrows ncols (fun r k =>
                   new_axes (share_group sharex ncols r k)
                            (share_group sharey ncols r k)));
     xaxis := replicate (share_groups sharex nrows ncols) default_axis;
     yaxis := replicate (share_groups sharey nrows ncols) default_axis;
     suptitle := None; tight := false; closed := false |}.

(** The handles [plt.subplots] returns for the axes of figure [n]. *)
Definition subplots_handles (n nrows ncols : nat) : list (list axref) :=
  grid nrows ncols (fun r k => {| ax_fig := n; ax_idx := (r * ncols + k)%nat |}).

(** Changes of one axes of a figure, and of the axis groups it belongs to. *)
Definition on_axes (i : nat) (g : axes -> axes) (f : figure) : figure :=
  with_fig_axes (alter g i (fig_axes f)) f.
Definition on_xaxis (grp : nat) (g : axis -> axis) (f : figure) : figure :=
  with_xaxis (alter g grp (xaxis f)) f.
Definition on_yaxis (grp : nat) (g : axis -> axis) (f : figure) : figure :=
  with_yaxis (alter g grp (yaxis f)) f.

Definition with_fates (fs : list (option exn)) (s : state) : state :=
  {| heap := heap s; figs := figs s; gcf := gcf s; cell := cell s; uses := uses s;
     stdout := stdout s; fates := fs; ncalls := ncalls s |}.

(** Two small states for closed examples: three integer arrays and one
    figure with one axes; and one array of 1000 samples. *)
Definition demo_state : state :=
  snd ((x ← np_array [1; 2; 3]%Z;
        y ← np_array [4; 5; 6]%Z;
        z ← np_array [7; 8]%Z;
        plt_subplots 1 1 ShareNone ShareNone) (init [])).

(** Years with populations as In[25] leaves them, as float arrays: the
    arrays 3 and 4 have three and two elements. *)
Definition demo_bars : state :=
  snd ((years ← np_array [1801; 1851; 1901]%Z;
        inner ← np_array [1; 2; 3]%Z;
        outer ← np_array [4; 5]%Z;
        _ ← array_div inner 2;
        _ ← array_div outer 2;
        plt_figure) (init [])).

Definition demo_samples : state := snd (np_linspace 0 1 1000 (init [])).

Definition demo_axes : axref := {| ax_fig := 0; ax_idx := 0 |}.

(** * Properties *)

(** ** Bars *)

Lemma broadcast_scan_same (n : nat) :
  broadcast_scan 1 0 [(0, n); (1, n); (3, n)]%nat = inl n.
Proof. cbn. repeat case_decide; congruence. Qed.

Lemma broadcast_to_same (n : nat) (l : list float) :
  length l = n -> broadcast_to n l = l.
Proof. intros <-. destruct l as [|v [|w l]]; reflexivity. Qed.

Lemma length_convert_dx (dx x : list float) :
  length (convert_dx dx x) = length dx.
Proof.
  unfold convert_dx. destruct (first_finite x); [apply length_map|reflexivity].
Qed.

(** [NoDup] of a list of distinct literals. *)
Ltac nodup_literal :=
  repeat (apply NoDup_cons; split;
          [rewrite ?elem_of_cons, elem_of_nil; intuition discriminate|]);
  apply NoDup_nil; exact I.

Create HintDb grows.

(** Splits a conjunction into its parts, and nothing else. *)
Ltac conjs := repeat match goal with |- _ /\ _ => split end.

Section Notebook.
Context `{Libm}.

(** No library call of the script raises by itself, and the script ends
    with the namespace [names]. *)
Lemma script_returns : fst (script (init [])) = Ok names.
Proof. vm_compute. reflexivity. Qed.

(** The second [plt.bar] of In[27] is handed [years], [outer_pop] and,
    as [bottom], [inner_pop]. *)
Lemma stacked_call :
  bar_rectangles (array_of (v_years names) final)
                 (array_of (v_outer_pop names) final)
                 (array_of (v_inner_pop names) final) 10.0
  = Some (bars_in 27 "outer" final).
Proof. vm_compute. reflexivity. Qed.

(** C1. Stacked bars: for every year the 'outer' bar starts where the
    'inner' bar of that year ends, that is at [inner_pop] (in millions),
    and it ends at [inner_pop + outer_pop].  The height that is drawn is
    the one [_convert_dx] makes of [outer_pop], measured from the first
    'inner' value; the top of the bar is [inner_pop + outer_pop] in
    float64 all the same, for each of the five years. *)
Theorem stacked_outer_on_inner :
  fst (script (init [])) = Ok names /\
  array_of (v_inner_pop names) final = millions London.inner_pop /\
  array_of (v_outer_pop names) final = millions London.outer_pop /\
  length (bars_in 27 "outer" final) = length London.years /\
  Forall2 (fun r ab => rect_y r = fst ab /\
                       rect_top r = PrimFloat.add (fst ab) (snd ab))
          (bars_in 27 "outer" final)
          (zip (array_of (v_inner_pop names) final)
               (array_of (v_outer_pop names) final)) /\
  Forall2 (fun ri ro => rect_y ro = rect_top ri /\ rect_x ro = rect_x ri)
          (bars_in 27 "inner" final) (bars_in 27 "outer" final) /\
  map rect_height (bars_in 27 "outer" final)
    = convert_dx (array_of (v_outer_pop names) final)
                 (array_of (v_inner_pop names) final).
Proof.
  split; [apply script_returns|].
  split; [vm_compute; reflexivity|].
  split; [vm_compute; reflexivity|].
  split; [vm_compute; reflexivity|].
  split; [vm_compute; repeat constructor|].
  split; [vm_compute; repeat constructor|].
  vm_compute; reflexivity.
Qed.

(** C2. Grouped bars: the two series are centred on [years - 5] and
    [years + 5] and are 7 wide, so for every year the 'inner' bar covers
    [year - 5 - 3.5, year - 5 + 3.5], the 'outer' bar covers
    [year + 5 - 3.5, year + 5 + 3.5], and the first ends before the
    second begins. *)
Theorem grouped_bars_disjoint :
  array_of (v_iyears names) final
    = map (fun y => PrimFloat.sub (float_of_Z y) 5.0) London.years /\
  array_of (v_oyears names) final
    = map (fun y => PrimFloat.add (float_of_Z y) 5.0) London.years /\
  Forall (fun r => rect_width r = 7.0%float)
         (bars_in 26 "inner" final ++ bars_in 26 "outer" final) /\
  Forall2 (fun y io =>
             let year := float_of_Z y in
             let ri := fst io in
             let ro := snd io in
             rect_x ri = PrimFloat.sub (PrimFloat.sub year 5.0) 3.5 /\
             rect_right ri = PrimFloat.add (PrimFloat.sub year 5.0) 3.5 /\
             rect_x ro = PrimFloat.sub (PrimFloat.add year 5.0) 3.5 /\
             rect_right ro = PrimFloat.add (PrimFloat.add year 5.0) 3.5 /\
             PrimFloat.ltb (rect_right ri) (rect_x ro) = true)
          London.years
          (zip (bars_in 26 "inner" final) (bars_in 26 "outer" final)).
Proof.
  split; [vm_compute; reflexivity|].
  split; [vm_compute; reflexivity|].
  split; [vm_compute; repeat constructor|].
  assert (Hz : zip (bars_in 26 "inner" final) (bars_in 26 "outer" final)
               = zip_with (fun y w =>
                   ({| rect_x := PrimFloat.sub (PrimFloat.sub (float_of_Z y) 5.0) 3.5;
                       rect_y := PrimFloat.zero; rect_width := 7.0;
                       rect_height := fst w |},
                    {| rect_x := PrimFloat.sub (PrimFloat.add (float_of_Z y) 5.0) 3.5;
                       rect_y := PrimFloat.zero; rect_width := 7.0;
                       rect_height := snd w |}))
                   London.years
                   (zip (millions London.inner_pop) (millions London.outer_pop)))
    by (vm_compute; reflexivity).
  rewrite Hz. unfold London.years, millions, London.inner_pop, London.outer_pop.
  simpl zip_with.
  repeat constructor; vm_compute; reflexivity.
Qed.

(** ** The grid with shared axes *)

(** C3. The figure of In[24] is a 2x3 grid of six axes, and cell
    [(iy, ix)] holds exactly one line: the curve [funcs[iy][ix]] over
    [x], labelled [labels[iy][ix]], with a legend showing that label.
    [one_sub] does two things: it plots and it adds the legend. *)
Theorem grid_cells_populated :
  fst (script (init [])) = Ok names /\
  (fig_axes <$> figs final !! v_fig names)
    = Some (omap (fun a => axes_at a final) (concat (v_axes names))) /\
  map length (v_axes names) = [3; 3]%nat /\
  NoDup (concat (v_axes names)) /\
  Forall (fun c =>
            match grid_item (v_axes names) (fst c) (snd c),
                  grid_item (v_funcs names) (fst c) (snd c),
                  grid_item (v_labels names) (fst c) (snd c) with
            | Some a, Some y, Some l =>
                lines_at a final =
                  [{| xdata := array_of (v_x names) final;
                      ydata := array_of y final;
                      line_label := Some l; line_color := None |}] /\
                legend_at a final = Some [l]
            | _, _, _ => False
            end)
         (list_prod (range 2) (range 3)) /\
  length (filter (fun u => use_cell u = 24%nat) (uses_of "plot" final)) = 6%nat /\
  (forall ax x y label,
      one_sub ax x y label = (ax_plot ax x y (Some label) None;; ax_legend ax)).
Proof.
  split; [apply script_returns|].
  split; [vm_compute; reflexivity|].
  split; [reflexivity|].
  split; [vm_compute; nodup_literal|].
  split; [|split; [vm_compute; reflexivity|reflexivity]].
  repeat constructor; vm_compute; reflexivity.
Qed.

(** C4. With [sharex="all"] and [sharey="row"], the single calls of
    [set_xlim], [set_ylim] and [set_xticks] reach the whole grid: every
    subplot has the x limits (-10, 10) and the major and minor x ticks
    set on [axes[0,0]], the top row has the y limits (-1.0e4, 1.0e4) and
    the bottom row has (-2.0, 2.0). *)
Theorem grid_axes_linked :
  Forall (fun a =>
            ax_get_xlim a final = Some (Manual (-10.0) 10.0) /\
            ax_get_xticks a final =
              Some (Some (map float_of_Z (arange (-10) 11 5)),
                    Some (map float_of_Z (arange (-10) 11 1))))
         (concat (v_axes names)) /\
  Forall2 (fun row l => Forall (fun a => ax_get_ylim a final = Some l) row)
          (v_axes names)
          [Manual (-1.0e4) 1.0e4; Manual (-2.0) 2.0] /\
  length (filter (fun u => use_cell u = 24%nat) (uses_of "set_xticks" final))
    = 2%nat.
Proof.
  split; [|split].
  - repeat constructor; vm_compute; reflexivity.
  - repeat constructor; vm_compute; reflexivity.
  - vm_compute; reflexivity.
Qed.

(** ** Two y axes *)

(** C5. The figure of In[21] has exactly two axes, [ax1] and its twin
    [ax2].  They share the x axis (same limits, and a change through one
    handle shows through the other), their y axes are independent:
    [ax2] has the y limits (-1.0, 1.0) set by hand, [ax1] is left on
    autoscaling, and [ax2.set_ylim] does not touch the y limits of
    [ax1]. *)
Theorem dual_axis_twin :
  ax_fig (v_ax1 names) = ax_fig (v_ax2 names) /\
  (made_in <$> figs final !! ax_fig (v_ax1 names)) = Some 21%nat /\
  (fig_axes <$> figs final !! ax_fig (v_ax1 names))
    = Some (omap (fun a => axes_at a final) [v_ax1 names; v_ax2 names]) /\
  NoDup [v_ax1 names; v_ax2 names] /\
  (xgroup <$> axes_at (v_ax1 names) final)
    = (xgroup <$> axes_at (v_ax2 names) final) /\
  (ygroup <$> axes_at (v_ax1 names) final)
    <> (ygroup <$> axes_at (v_ax2 names) final) /\
  ax_get_xlim (v_ax1 names) final = ax_get_xlim (v_ax2 names) final /\
  ax_get_ylim (v_ax2 names) final = Some (Manual (-1.0) 1.0) /\
  ax_get_ylim (v_ax1 names) final = Some Auto /\
  (forall lo hi,
      let s := snd (ax_set_ylim (v_ax2 names) lo hi final) in
      ax_get_ylim (v_ax2 names) s = Some (Manual lo hi) /\
      ax_get_ylim (v_ax1 names) s = ax_get_ylim (v_ax1 names) final) /\
  (forall lo hi,
      let s := snd (ax_set_xlim (v_ax2 names) lo hi final) in
      ax_get_xlim (v_ax2 names) s = Some (Manual lo hi) /\
      ax_get_xlim (v_ax1 names) s = Some (Manual lo hi)).
Proof.
  conjs; try (intros lo hi; split); try (vm_compute; reflexivity).
  - vm_compute. nodup_literal.
  - vm_compute. discriminate.
Qed.

(** ** The data *)

Lemma zip_map_graph {A B} (f : A -> B) (l : list A) :
  zip l (map f l) = map (fun v => (v, f v)) l.
Proof. induction l as [|v l IH]; simpl; [reflexivity|]. now rewrite IH. Qed.

(** C10. [x] (made in In[21]) and [t] (made in In[24]) are two arrays
    with the same 1000 samples, so the line of cell [(iy, ix)] runs
    through the points [(v, f v)] for the samples [v] in [t], where [f]
    is the function of that cell. *)
Theorem grid_points_on_curves :
  v_x names <> v_t names /\
  array_of (v_x names) final = array_of (v_t names) final /\
  array_of (v_t names) final = linspace (-10.0) 10.0 1000 /\
  length (array_of (v_t names) final) = 1000%nat /\
  Forall (fun c =>
            match grid_item (v_axes names) (fst c) (snd c),
                  grid_item functions (fst c) (snd c) with
            | Some a, Some f =>
                map points (lines_at a final)
                = [map (fun v => (v, f v)) (array_of (v_t names) final)]
            | _, _ => False
            end)
         (list_prod (range 2) (range 3)).
Proof.
  assert (Hx : array_of (v_x names) final = array_of (v_t names) final)
    by (vm_compute; reflexivity).
  split; [vm_compute; discriminate|].
  split; [exact Hx|].
  split; [vm_compute; reflexivity|].
  split; [vm_compute; reflexivity|].
  assert (Hl : Forall (fun c =>
            match grid_item (v_axes names) (fst c) (snd c),
                  grid_item (v_funcs names) (fst c) (snd c),
                  grid_item functions (fst c) (snd c) with
            | Some a, Some y, Some f =>
                map points (lines_at a final)
                = [zip (array_of (v_x names) final) (array_of y final)] /\
                array_of y final = map f (array_of (v_t names) final)
            | _, _, _ => False
            end)
         (list_prod (range 2) (range 3)))
    by (repeat constructor; vm_compute; reflexivity).
  eapply Forall_impl; [exact Hl|].
  clear Hl. intros [iy ix]. cbn [fst snd].
  destruct (grid_item (v_axes names) iy ix) as [a|]; [|intros []].
  destruct (grid_item (v_funcs names) iy ix) as [y|]; [|intros []].
  destruct (grid_item functions iy ix) as [f|]; [|intros []].
  intros (Hp & Hy).
  rewrite Hp, Hy, Hx, zip_map_graph. reflexivity.
Qed.

(** C7. Every [plot] call is handed two arrays of 1000 elements and
    every [bar] call arrays of 5 elements (two, or three with
    [bottom]), so the length check of the library never fails: the
    script runs to its end. *)
Theorem paired_arrays_match :
  fst (script (init [])) = Ok names /\
  Forall (fun sizes => sizes = [Some 1000; Some 1000]%nat)
         (map (arg_sizes final) (uses_of "plot" final)) /\
  Forall (fun sizes => Forall (eq (Some 5%nat)) sizes /\ (2 <= length sizes)%nat)
         (map (arg_sizes final) (uses_of "bar" final)) /\
  length (uses_of "plot" final) = 9%nat /\
  length (uses_of "bar" final) = 4%nat.
Proof.
  split; [apply script_returns|].
  split; [|split; [|split]]; try (vm_compute; reflexivity).
  - vm_compute. repeat constructor.
  - vm_compute. repeat constructor.
Qed.

(** C9. The literal counts satisfy greater = inner + outer at every
    index, exactly (and within int64); [greater_pop] stays as written:
    it is never handed to a library call. *)
Theorem greater_is_inner_plus_outer :
  London.greater_pop = zip_with Z.add London.inner_pop London.outer_pop /\
  London.greater_pop = zip_with int64_add London.inner_pop London.outer_pop /\
  length London.inner_pop = length London.greater_pop /\
  length London.outer_pop = length London.greater_pop /\
  (value <$> heap final !! v_greater_pop names) = Some (I64 London.greater_pop) /\
  filter (fun u => v_greater_pop names ∈ use_args u) (uses final) = [].
Proof.
  split; [reflexivity|].
  split; [vm_compute; reflexivity|].
  split; [reflexivity|].
  split; [reflexivity|].
  split; vm_compute; reflexivity.
Qed.

(** ** The store only grows *)

Lemma heap_grows_ret {A} (a : A) : heap_grows (ret a).
Proof. intros s. reflexivity. Qed.

Lemma heap_grows_raise {A} (e : exn) : heap_grows (@raise A e).
Proof. intros s. reflexivity. Qed.

Lemma heap_grows_bind {A B} (m : M A) (k : A -> M B) :
  heap_grows m -> (forall a, heap_grows (k a)) -> heap_grows (m ≫= k).
Proof.
  intros Hm Hk s. unfold mbind, M_bind, bind.
  specialize (Hm s). destruct (m s) as [[a|e] s']; cbn [snd] in *.
  - etransitivity; [exact Hm|apply Hk].
  - exact Hm.
Qed.

Lemma heap_grows_extern {A} (m : M A) : heap_grows m -> heap_grows (extern m).
Proof.
  intros Hm s. unfold extern.
  destruct (fates s) as [|[e|] fs]; try apply (Hm (tick s)). reflexivity.
Qed.

Lemma heap_grows_modify (f : state -> state) :
  (forall s, heap (f s) = heap s) -> heap_grows (modify f).
Proof. intros Hf s. unfold modify. cbn [snd]. rewrite Hf. reflexivity. Qed.

Lemma heap_grows_get : heap_grows get.
Proof. intros s. reflexivity. Qed.

Lemma heap_grows_alloc (a : ndarray) : heap_grows (alloc a).
Proof. intros s. unfold alloc. cbn. apply prefix_app_r. reflexivity. Qed.

Lemma heap_grows_deref (r : nat) : heap_grows (deref r).
Proof. intros s. unfold deref. destruct (heap s !! r); reflexivity. Qed.

Lemma heap_grows_get_fig (i : nat) : heap_grows (get_fig i).
Proof. intros s. unfold get_fig. destruct (figs s !! i); reflexivity. Qed.

Lemma heap_grows_new_figure : heap_grows new_figure.
Proof. intros s. reflexivity. Qed.

Lemma heap_grows_for {A} (l : list A) (body : A -> M unit) :
  (forall v, heap_grows (body v)) -> heap_grows (for_ l body).
Proof.
  intros Hb. induction l as [|v l IH]; cbn [for_].
  - apply heap_grows_ret.
  - apply (heap_grows_bind (body v) (fun _ => for_ l body)); auto.
Qed.

(** Every action of the script is built from the primitives above. *)
Ltac grows_step :=
  first
    [ apply heap_grows_ret
    | apply heap_grows_raise
    | apply heap_grows_get
    | apply heap_grows_alloc
    | apply heap_grows_deref
    | apply heap_grows_get_fig
    | apply heap_grows_new_figure
    | apply heap_grows_modify; intros; reflexivity
    | apply heap_grows_extern
    | apply heap_grows_for
    | apply heap_grows_bind
    | progress intros
    | progress cbv beta zeta
    | match goal with
      | |- heap_grows (match ?x with _ => _ end) => destruct x
      end ].

Ltac grows := repeat grows_step.

Lemma heap_grows_index {A} (l : list A) (i : nat) : heap_grows (index l i).
Proof. unfold index. grows. Qed.

Lemma heap_grows_item g r c : heap_grows (item g r c).
Proof. unfold item, index. grows. Qed.

Lemma heap_grows_modify_fig i g : heap_grows (modify_fig i g).
Proof. unfold modify_fig. grows. Qed.

Lemma heap_grows_get_axes a : heap_grows (get_axes a).
Proof. unfold get_axes. grows. Qed.

Lemma heap_grows_modify_axes a g : heap_grows (modify_axes a g).
Proof.
  unfold modify_axes. apply heap_grows_bind;
    [apply heap_grows_get_axes|intros; apply heap_grows_modify_fig].
Qed.

Lemma heap_grows_gca : heap_grows gca.
Proof.
  unfold gca. grows; try apply heap_grows_modify_fig.
Qed.

Lemma heap_grows_log_use op args : heap_grows (log_use op args).
Proof. unfold log_use. grows. Qed.

Lemma heap_grows_py_print l : heap_grows (py_print l).
Proof. unfold py_print. grows. Qed.

Lemma heap_grows_ufunc name f r : heap_grows (ufunc name f r).
Proof. unfold ufunc. grows; apply heap_grows_log_use. Qed.

Lemma heap_grows_plt_subplots nrows ncols sharex sharey :
  heap_grows (plt_subplots nrows ncols sharex sharey).
Proof. unfold plt_subplots. grows; apply heap_grows_modify_fig. Qed.

Lemma heap_grows_plt_subplots_default : heap_grows plt_subplots_default.
Proof.
  unfold plt_subplots_default.
  apply heap_grows_bind; [apply heap_grows_plt_subplots|].
  intros [fig g]. grows; apply heap_grows_index.
Qed.

#[local] Hint Resolve heap_grows_index heap_grows_item heap_grows_modify_fig
  heap_grows_get_axes heap_grows_modify_axes heap_grows_gca
  heap_grows_log_use heap_grows_py_print heap_grows_ufunc
  heap_grows_plt_subplots heap_grows_plt_subplots_default : grows.

Ltac grows_ops := repeat first [solve [auto with grows] | grows_step].

Lemma heap_grows_run_line_magic n a : heap_grows (run_line_magic n a).
Proof. unfold run_line_magic. grows_ops. Qed.

Lemma heap_grows_np_array l : heap_grows (np_array l).
Proof. unfold np_array. grows_ops. Qed.

Lemma heap_grows_np_linspace a b n : heap_grows (np_linspace a b n).
Proof. unfold np_linspace. grows_ops. Qed.

Lemma heap_grows_np_arange a b c : heap_grows (np_arange a b c).
Proof. unfold np_arange. grows_ops. Qed.

Lemma heap_grows_plt_figure : heap_grows plt_figure.
Proof. unfold plt_figure. grows_ops. Qed.

Lemma heap_grows_plt_close : heap_grows plt_close.
Proof. unfold plt_close. grows_ops. Qed.

Lemma heap_grows_plt_show : heap_grows plt_show.
Proof. unfold plt_show. grows_ops. Qed.

Lemma heap_grows_ax_twinx a : heap_grows (ax_twinx a).
Proof. unfold ax_twinx. grows_ops. Qed.

Lemma heap_grows_ax_set_xlim a lo hi : heap_grows (ax_set_xlim a lo hi).
Proof. unfold ax_set_xlim. grows_ops. Qed.

Lemma heap_grows_ax_set_ylim a lo hi : heap_grows (ax_set_ylim a lo hi).
Proof. unfold ax_set_ylim. grows_ops. Qed.

Lemma heap_grows_ax_set_xticks a r minor : heap_grows (ax_set_xticks a r minor).
Proof. unfold ax_set_xticks. grows_ops. Qed.

Lemma heap_grows_ax_set_xlabel a t c : heap_grows (ax_set_xlabel a t c).
Proof. unfold ax_set_xlabel. grows_ops. Qed.

Lemma heap_grows_ax_set_ylabel a t c : heap_grows (ax_set_ylabel a t c).
Proof. unfold ax_set_ylabel. grows_ops. Qed.

Lemma heap_grows_ax_tick_params_y a c : heap_grows (ax_tick_params_y a c).
Proof. unfold ax_tick_params_y. grows_ops. Qed.

Lemma heap_grows_ax_plot a x y l c : heap_grows (ax_plot a x y l c).
Proof. unfold ax_plot. grows_ops. Qed.

Lemma heap_grows_ax_legend a : heap_grows (ax_legend a).
Proof. unfold ax_legend. grows_ops. Qed.

Lemma heap_grows_fig_tight_layout f : heap_grows (fig_tight_layout f).
Proof. unfold fig_tight_layout. grows_ops. Qed.

Lemma heap_grows_fig_suptitle f t : heap_grows (fig_suptitle f t).
Proof. unfold fig_suptitle. grows_ops. Qed.

Lemma heap_grows_plt_bar x h w b l : heap_grows (plt_bar x h w b l).
Proof. unfold plt_bar. grows_ops. Qed.

Lemma heap_grows_plt_title t : heap_grows (plt_title t).
Proof. unfold plt_title. grows_ops. Qed.

Lemma heap_grows_plt_xlabel t : heap_grows (plt_xlabel t).
Proof. unfold plt_xlabel. grows_ops. Qed.

Lemma heap_grows_plt_ylabel t : heap_grows (plt_ylabel t).
Proof. unfold plt_ylabel. grows_ops. Qed.

Lemma heap_grows_plt_legend : heap_grows plt_legend.
Proof. unfold plt_legend. grows_ops. Qed.

Lemma heap_grows_in_cell {A} n (m : M A) : heap_grows m -> heap_grows (in_cell n m).
Proof. intros Hm. unfold in_cell. grows_ops. Qed.

#[local] Hint Resolve heap_grows_run_line_magic heap_grows_np_array
  heap_grows_np_linspace heap_grows_np_arange heap_grows_plt_figure
  heap_grows_plt_close heap_grows_plt_show heap_grows_ax_twinx
  heap_grows_ax_set_xlim heap_grows_ax_set_ylim heap_grows_ax_set_xticks
  heap_grows_ax_set_xlabel heap_grows_ax_set_ylabel
  heap_grows_ax_tick_params_y heap_grows_ax_plot heap_grows_ax_legend
  heap_grows_fig_tight_layout heap_grows_fig_suptitle heap_grows_plt_bar
  heap_grows_plt_title heap_grows_plt_xlabel heap_grows_plt_ylabel
  heap_grows_plt_legend heap_grows_in_cell : grows.

Lemma heap_grows_one_sub ax x y l : heap_grows (one_sub ax x y l).
Proof. unfold one_sub. grows_ops. Qed.

#[local] Hint Resolve heap_grows_one_sub : grows.

Lemma heap_grows_In19 : heap_grows In19.
Proof. unfold In19. grows_ops. Qed.

Lemma heap_grows_In20 : heap_grows In20.
Proof. unfold In20. grows_ops. Qed.

Lemma heap_grows_In21 : heap_grows In21.
Proof.
  unfold In21, np_sinh, np_sin. grows_ops.
Qed.

Lemma heap_grows_In22 : heap_grows In22.
Proof. unfold In22. grows_ops. Qed.

Lemma heap_grows_In23 x sin : heap_grows (In23 x sin).
Proof. unfold In23. grows_ops. Qed.

Lemma heap_grows_In24 x : heap_grows (In24 x).
Proof.
  unfold In24, np_sin, np_sinh, np_cos, np_cosh, np_tan, np_tanh. grows_ops.
Qed.

Lemma heap_grows_In25 : heap_grows In25.
Proof. unfold In25, array_div. grows_ops. Qed.

Lemma heap_grows_In26 y i o : heap_grows (In26 y i o).
Proof. unfold In26, array_sub, array_add. grows_ops. Qed.

Lemma heap_grows_In27 y i o : heap_grows (In27 y i o).
Proof. unfold In27. grows_ops. Qed.

#[local] Hint Resolve heap_grows_In19 heap_grows_In20 heap_grows_In21
  heap_grows_In22 heap_grows_In23 heap_grows_In24 heap_grows_In25
  heap_grows_In26 heap_grows_In27 : grows.



(** ** Exceptions *)

Lemma script_calls_count : ncalls final = script_calls.
Proof. vm_compute. reflexivity. Qed.

(** C8. The script has no handler: whichever library call is the first
    to raise, and whatever it raises, that exception is the outcome of
    the script, no later library call is made, and nothing is printed
    about it. *)
Theorem library_exception_propagates (k : nat) (e : exn) (rest : list (option exn)) :
  (k < script_calls)%nat ->
  let r := script (init (replicate k None ++ Some e :: rest)) in
  fst r = Raise e /\
  ncalls (snd r) = S k /\
  fates (snd r) = rest /\
  exists more, stdout final = stdout (snd r) ++ more.
Proof.
  unfold script_calls. intros Hk.
  do 85 (destruct k as [|k];
         [vm_compute; repeat split; eexists; reflexivity|]).
  exfalso. lia.
Qed.
End Notebook.


(** C8 at a concrete input: the fourth library call raises [ValueError]. *)
Lemma library_exception_propagates_witness :
  (3 < script_calls)%nat /\
  fst (@script sample_libm
         (init (replicate 3 None ++ Some (ValueError "shape mismatch") :: [])))
  = Raise (ValueError "shape mismatch").
Proof.
  assert (Hk : (3 < script_calls)%nat) by (unfold script_calls; lia).
  split; [exact Hk|].
  exact (proj1 (@library_exception_propagates sample_libm 3
                  (ValueError "shape mismatch") [] Hk)).
Defined.

(** * Cells and statements, from any state *)



Lemma map_alter_same {A B} (g : A -> B) (f : A -> A) (i : nat) (l : list A) :
  (forall v, g (f v) = g v) -> map g (alter f i l) = map g l.
Proof.
  intros Hg. revert i. induction l as [|v l IH]; intros [|i]; cbn; try reflexivity.
  - now rewrite Hg.
  - now rewrite IH.
Qed.

Ltac run_ops :=
  unfold one_sub, ax_plot, ax_legend, modify_axes, get_axes, modify_fig,
    get_fig, deref, log_use, modify, extern, mbind, M_bind, bind, tick,
    raise, ret.

Ltac run_with tac :=
  repeat first [progress cbn | tac | rewrite list_lookup_alter_eq].

Section OneSub.
Variables (s : state) (a : axref) (xr yr : nat) (l : string).
Variables (f : figure) (ax : axes) (ox oy : obj).
Hypothesis Hfig : figs s !! ax_fig a = Some f.
Hypothesis Hax : fig_axes f !! ax_idx a = Some ax.
Hypothesis Hx : heap s !! xr = Some ox.
Hypothesis Hy : heap s !! yr = Some oy.

Lemma axes_at_alter (b : axref) (g : axes -> axes) (s' : state) :
  figs s' = alter (fun f0 => with_fig_axes (alter g (ax_idx a) (fig_axes f0)) f0)
                  (ax_fig a) (figs s) ->
  axes_at b s' = if decide (b = a) then g <$> axes_at b s else axes_at b s.
Proof.
  intros Hs'. unfold axes_at. rewrite Hs'.
  destruct a as [fa ia], b as [fb ib]; cbn in *.
  rewrite list_lookup_alter.
  destruct (decide (fa = fb)) as [<-|Hne].
  - destruct (figs s !! fa) as [f0|]; cbn.
    + rewrite list_lookup_alter.
      destruct (decide (ia = ib)) as [<-|Hi].
      * rewrite decide_True by reflexivity. reflexivity.
      * rewrite decide_False by congruence. reflexivity.
    + case_decide; reflexivity.
  - rewrite decide_False by congruence. reflexivity.
Qed.

(** X1. With an axes handle that exists and two arrays of one size,
    [one_sub] succeeds; the axes gets exactly one more line, labelled, and
    a legend of the labels that a legend lists (those that are not empty
    and do not start with an underscore); every other axes, all axis
    limits and ticks and the store stay as they were; two library calls
    are made. *)
Theorem one_sub_effect :
  fates s = [] ->
  size (value ox) = size (value oy) ->
  let r := one_sub a xr yr l s in
  fst r = Ok tt /\
  axes_at a (snd r)
    = Some (with_own_legend (add_line (value ox) (value oy) (Some l) None ax)) /\
  (forall b, b <> a -> axes_at b (snd r) = axes_at b s) /\
  map xaxis (figs (snd r)) = map xaxis (figs s) /\
  map yaxis (figs (snd r)) = map yaxis (figs s) /\
  heap (snd r) = heap s /\
  uses (snd r) = uses s ++ [plot_use s xr yr] /\
  ncalls (snd r) = S (S (ncalls s)).
Proof.
  intros Hf Hsz.
  assert (Hrun : one_sub a xr yr l s =
    (Ok tt,
     with_figs
       (alter (fun f0 => with_fig_axes
                 (alter (fun ax0 => with_own_legend
                                      (add_line (value ox) (value oy) (Some l) None ax0))
                        (ax_idx a) (fig_axes f0)) f0)
              (ax_fig a) (figs s))
       (with_uses (uses s ++ [plot_use s xr yr]) (tick (tick s))))).
  { destruct s as [h fg g c u o ft n]; cbn in *; subst ft.
    run_ops.
    run_with ltac:(first [rewrite Hx | rewrite Hy | rewrite Hfig | rewrite Hax
                         | rewrite decide_True by assumption]).
    unfold with_figs; cbn. do 2 f_equal.
    rewrite list_alter_alter_eq. apply list_alter_ext; [|reflexivity].
    intros f0 _. cbn. unfold with_fig_axes; cbn. f_equal.
    rewrite list_alter_alter_eq. reflexivity. }
  cbv zeta. rewrite Hrun. cbn [fst snd].
  split; [reflexivity|].
  split.
  { erewrite axes_at_alter by reflexivity.
    rewrite decide_True by reflexivity.
    unfold axes_at. rewrite Hfig, Hax. reflexivity. }
  split.
  { intros b Hb. erewrite axes_at_alter by reflexivity.
    rewrite decide_False by assumption. reflexivity. }
  split; [apply map_alter_same; reflexivity|].
  split; [apply map_alter_same; reflexivity|].
  destruct s; cbn in *; subst. repeat split.
Qed.

(** X2. With arrays of different sizes [one_sub] raises a ValueError,
    the one of [plot]: no figure changes and [legend] is never called. *)
Theorem one_sub_mismatch :
  fates s = [] ->
  size (value ox) <> size (value oy) ->
  let r := one_sub a xr yr l s in
  (exists e, fst r = Raise e /\ exn_class e = "ValueError") /\
  figs (snd r) = figs s /\
  heap (snd r) = heap s /\
  uses (snd r) = uses s ++ [plot_use s xr yr] /\
  ncalls (snd r) = S (ncalls s).
Proof.
  clear Hfig Hax. intros Hf Hsz.
  destruct s as [h fg g c u o ft n]; cbn in *; subst ft.
  run_ops.
  run_with ltac:(first [rewrite Hx | rewrite Hy
                       | rewrite decide_False by assumption]).
  split; [eexists; split; reflexivity|]. repeat split.
Qed.

(** X3. If [plot] returns and [legend] raises, the exception leaves
    [one_sub] and the line that was drawn stays on the axes, without a
    legend: nothing is rolled back. *)
Theorem one_sub_legend_raises (e : exn) (rest : list (option exn)) :
  fates s = None :: Some e :: rest ->
  size (value ox) = size (value oy) ->
  let r := one_sub a xr yr l s in
  fst r = Raise e /\
  axes_at a (snd r) = Some (add_line (value ox) (value oy) (Some l) None ax) /\
  (forall b, b <> a -> axes_at b (snd r) = axes_at b s) /\
  fates (snd r) = rest /\
  ncalls (snd r) = S (S (ncalls s)).
Proof.
  intros Hf Hsz.
  assert (Hrun : one_sub a xr yr l s =
    (Raise e,
     with_figs
       (alter (fun f0 => with_fig_axes
                 (alter (add_line (value ox) (value oy) (Some l) None)
                        (ax_idx a) (fig_axes f0)) f0)
              (ax_fig a) (figs s))
       (with_uses (uses s ++ [plot_use s xr yr]) (tick (tick s))))).
  { destruct s as [h fg g c u o ft n]; cbn in *; subst ft.
    run_ops.
    run_with ltac:(first [rewrite Hx | rewrite Hy | rewrite Hfig | rewrite Hax
                         | rewrite decide_True by assumption]).
    reflexivity. }
  cbv zeta. rewrite Hrun. cbn [fst snd].
  split; [reflexivity|].
  split.
  { erewrite axes_at_alter by reflexivity.
    rewrite decide_True by reflexivity.
    unfold axes_at. rewrite Hfig, Hax. reflexivity. }
  split.
  { intros b Hb. erewrite axes_at_alter by reflexivity.
    rewrite decide_False by assumption. reflexivity. }
  destruct s; cbn in *; subst. repeat split.
Qed.
End OneSub.

Lemma length_as_float (a : ndarray) : length (as_float a) = size a.
Proof. destruct a; cbn; [apply length_map|reflexivity]. Qed.

Lemma lookup_snoc {A} (l : list A) (v : A) : (l ++ [v]) !! length l = Some v.
Proof. apply list_lookup_middle. reflexivity. Qed.

Lemma alter_snoc {A} (g : A -> A) (l : list A) (v : A) :
  alter g (length l) (l ++ [v]) = l ++ [g v].
Proof.
  induction l as [|w l IH]; cbn; [reflexivity|]. f_equal. exact IH.
Qed.

Lemma broadcast_scan_scalar (n : nat) :
  broadcast_scan 1 0 [(0, n); (1, n); (3, 1)]%nat = inl n.
Proof. cbn. repeat case_decide; congruence. Qed.

Lemma convert_dx_zero (height : list float) :
  convert_dx height [PrimFloat.zero]
  = map (fun h => PrimFloat.sub (PrimFloat.add 0 h) 0) height.
Proof. reflexivity. Qed.

(** Without [bottom] every bar stands on 0; its width is the one
    [_convert_dx] makes of [width], and [x] is its centre. *)
Lemma bar_rectangles_default (x height : list float) (width : float) :
  length x = length height ->
  exists rs, bar_rectangles x height [PrimFloat.zero] width = Some rs /\
    Forall2 (fun r xh => rect_x r = PrimFloat.sub (fst xh)
                                      (PrimFloat.div (convert_width width x) 2) /\
                         rect_y r = PrimFloat.zero /\
                         rect_width r = convert_width width x /\
                         rect_height r = PrimFloat.sub (PrimFloat.add 0 (snd xh)) 0)
            rs (zip x height).
Proof.
  intros Hx. unfold bar_rectangles, bar_operands.
  rewrite convert_dx_zero, length_map. cbn [length].
  rewrite Hx, broadcast_scan_scalar.
  rewrite (broadcast_to_same _ x) by congruence.
  rewrite (broadcast_to_same _ (map _ height)) by apply length_map.
  eexists; split; [reflexivity|]. cbn [broadcast_to].
  generalize (convert_width width x) as w. intros w.
  revert height Hx.
  induction x as [|x0 x IH]; intros [|h0 h]; cbn; try discriminate; intros Hx.
  - exact (List.Forall2_nil _).
  - apply List.Forall2_cons; [repeat split|]. apply IH. cbn in Hx. congruence.
Qed.

(** With operands of one length, bar [i] stands on [bottom[i]] and has the
    height that [_convert_dx] makes of [height[i]]. *)
Lemma bar_rectangles_stacked (x height bottom : list float) (width : float) :
  length x = length height -> length bottom = length height ->
  exists rs, bar_rectangles x height bottom width = Some rs /\
    Forall2 (fun r xbh => rect_x r = PrimFloat.sub (fst xbh)
                                       (PrimFloat.div (convert_width width x) 2) /\
                          rect_y r = fst (snd xbh) /\
                          rect_width r = convert_width width x /\
                          rect_height r = snd (snd xbh))
            rs (zip x (zip bottom (convert_dx height bottom))).
Proof.
  intros Hx Hb. unfold bar_rectangles, bar_operands.
  rewrite length_convert_dx, Hx, Hb, broadcast_scan_same.
  rewrite !broadcast_to_same by (rewrite ?length_convert_dx; congruence).
  eexists; split; [reflexivity|].
  pose proof (length_convert_dx height bottom) as Hc.
  revert Hc.
  generalize (convert_dx height bottom) as hs.
  generalize (convert_width width x) as w.
  intros w hs Hc.
  revert height bottom hs Hx Hb Hc.
  induction x as [|x0 x IH]; intros [|h0 h] [|b0 b] [|k hs]; cbn;
    try discriminate; intros Hx Hb Hc.
  - exact (List.Forall2_nil _).
  - apply List.Forall2_cons; [repeat split|].
    apply (IH h); congruence.
Qed.

(** ** Running one statement *)

Lemma bind_Ok {A B} (m : M A) (k : A -> M B) (s s' : state) (a : A) :
  m s = (Ok a, s') -> (m ≫= k) s = k a s'.
Proof. intros Hm. unfold mbind, M_bind, bind. rewrite Hm. reflexivity. Qed.

Lemma bind_Raise {A B} (m : M A) (k : A -> M B) (s s' : state) (e : exn) :
  m s = (Raise e, s') -> (m ≫= k) s = (Raise e, s').
Proof. intros Hm. unfold mbind, M_bind, bind. rewrite Hm. reflexivity. Qed.

Ltac prim_ops :=
  unfold modify_axes, get_axes, modify_fig, get_fig, deref, log_use, alloc,
    modify, get, extern, mbind, M_bind, bind, tick, raise, ret.

Ltac simp_with tac :=
  repeat first [progress cbn -[bar_rectangles broadcast_message plot_mismatch
                               last_open linspace arange]
               | tac | rewrite list_lookup_alter_eq].

Lemma lookup_ensure_axes (f : figure) :
  exists ax, fig_axes (ensure_axes f) !! (length (fig_axes (ensure_axes f)) - 1)%nat
             = Some ax.
Proof.
  unfold ensure_axes. destruct (fig_axes f) as [|a0 l] eqn:E; cbn.
  - eexists; reflexivity.
  - rewrite E. apply lookup_lt_is_Some_2. cbn. lia.
Qed.

Section Statements.
Variable s : state.
Hypothesis Hquiet : fates s = [].

Lemma plt_figure_run :
  plt_figure s =
    (Ok (length (figs s)),
     with_gcf (Some (length (figs s)))
       (with_figs (figs s ++ [empty_figure (cell s)]) (tick s))).
Proof.
  destruct s; cbn in *; subst. unfold plt_figure, new_figure. prim_ops.
  reflexivity.
Qed.

Lemma plt_show_run :
  plt_show s =
    (Ok tt, with_gcf None (with_figs (map with_closed (figs s)) (tick s))).
Proof. destruct s; cbn in *; subst. unfold plt_show. prim_ops. reflexivity. Qed.

Lemma ufunc_run (name : string) (f : float -> float) (r : nat) (o : obj) :
  heap s !! r = Some o ->
  ufunc name f r s =
    (Ok (length (heap s)),
     with_heap (heap s ++ [{| owner := cell s;
                              value := F64 (map f (as_float (value o))) |}])
       (with_uses (uses s ++ [{| use_cell := cell s; use_op := name;
                                 use_args := [r] |}]) (tick s))).
Proof.
  intros Hr. destruct s; cbn in *; subst. unfold ufunc. prim_ops.
  simp_with ltac:(rewrite Hr). reflexivity.
Qed.

Lemma alter_fixed {A} (g : A -> A) (i : nat) (l : list A) (v : A) :
  l !! i = Some v -> g v = v -> alter g i l = l.
Proof.
  intros Hv Hg. transitivity (alter (fun w => w) i l).
  - apply list_alter_ext; [|reflexivity]. intros w Hw.
    assert (w = v) as -> by congruence. exact Hg.
  - apply list_alter_id. reflexivity.
Qed.

Lemma gca_run (n : nat) (F : figure) :
  gcf s = Some n -> figs s !! n = Some F ->
  gca s = (Ok {| ax_fig := n; ax_idx := (length (fig_axes (ensure_axes F)) - 1)%nat |},
           with_figs (alter ensure_axes n (figs s)) s).
Proof.
  clear Hquiet. intros Hg Hf. destruct s as [h fg g c u o ft k]; cbn in *; subst.
  unfold gca. prim_ops. simp_with ltac:(rewrite Hf).
  unfold ensure_axes. destruct (fig_axes F) as [|a0 l] eqn:E.
  - simp_with ltac:(rewrite Hf). unfold with_figs; cbn. do 2 f_equal.
    apply list_alter_ext; [|reflexivity]. intros F' HF'.
    assert (F' = F) as -> by congruence. rewrite E. reflexivity.
  - rewrite E. cbn. rewrite Nat.sub_0_r. unfold with_figs; cbn. do 2 f_equal.
    symmetry. apply (alter_fixed _ _ _ F Hf). rewrite E. reflexivity.
Qed.

Lemma modify_axes_run (a : axref) (g : axes -> axes) (f : figure) (ax : axes) :
  figs s !! ax_fig a = Some f -> fig_axes f !! ax_idx a = Some ax ->
  modify_axes a g s =
    (Ok tt,
     with_figs (alter (fun f0 => with_fig_axes (alter g (ax_idx a) (fig_axes f0)) f0)
                      (ax_fig a) (figs s)) s).
Proof.
  clear Hquiet. intros Hf Ha. destruct s; cbn in *. prim_ops.
  simp_with ltac:(first [rewrite Hf | rewrite Ha]). reflexivity.
Qed.
End Statements.

Lemma on_current_axes_run (s : state) (g : axes -> axes) (n : nat) (F : figure) :
  gcf s = Some n -> figs s !! n = Some F ->
  (a ← gca; modify_axes a g) s =
    (Ok tt, with_figs (alter (on_current_axes g) n (figs s)) s).
Proof.
  intros Hg Hf.
  erewrite bind_Ok; [|apply gca_run; [exact Hg|exact Hf]].
  destruct (lookup_ensure_axes F) as [ax Hax].
  erewrite modify_axes_run; cycle 1.
  - cbn. destruct s; cbn in *. rewrite list_lookup_alter_eq, Hf. reflexivity.
  - cbn. exact Hax.
  - destruct s; cbn in *. unfold with_figs; cbn. do 2 f_equal.
    rewrite list_alter_alter_eq. apply list_alter_ext; [|reflexivity].
    intros F' HF'. assert (F' = F) as -> by congruence. reflexivity.
Qed.

Section Pyplot.
Variables (s : state) (n : nat) (F : figure).
Hypothesis Hquiet : fates s = [].
Hypothesis Hgcf : gcf s = Some n.
Hypothesis Hfig : figs s !! n = Some F.

Lemma extern_quiet {A} (m : M A) : extern m s = m (tick s).
Proof. unfold extern. rewrite Hquiet. reflexivity. Qed.

Lemma on_gca_run (g : axes -> axes) :
  extern (a ← gca; modify_axes a g) s =
    (Ok tt, with_figs (alter (on_current_axes g) n (figs s)) (tick s)).
Proof.
  rewrite extern_quiet.
  rewrite (on_current_axes_run (tick s) g n F);
    [reflexivity|destruct s; assumption..].
Qed.

Lemma plt_bar_run (xr hr : nat) (width : float) (bottom : option nat)
    (label : option string) (ox oh : obj) (b : list float) (rs : list rectangle) :
  heap s !! xr = Some ox -> heap s !! hr = Some oh ->
  bottom_values s bottom = Some b ->
  bar_rectangles (as_float (value ox)) (as_float (value oh)) b width = Some rs ->
  plt_bar xr hr width bottom label s =
    (Ok tt,
     with_figs (alter (on_current_axes (add_bars rs label)) n (figs s))
       (with_uses (uses s ++ [bar_use s (xr :: hr :: option_list bottom)]) (tick s))).
Proof.
  intros Hx Hh Hb Hrs. unfold plt_bar. rewrite extern_quiet.
  erewrite bind_Ok by (apply gca_run; destruct s; eassumption).
  destruct (lookup_ensure_axes F) as [ax Hax].
  destruct s as [h fg g c u o ft k]; cbn in *; subst.
  assert (Hfin : forall G : axes -> axes,
    alter (fun f0 => with_fig_axes
             (alter G (length (fig_axes (ensure_axes F)) - 1)%nat (fig_axes f0)) f0)
          n (alter ensure_axes n fg)
    = alter (on_current_axes G) n fg).
  { intros G. rewrite list_alter_alter_eq. apply list_alter_ext; [|reflexivity].
    intros F' HF'. assert (F' = F) as -> by congruence. reflexivity. }
  destruct bottom as [br|]; cbn in Hb.
  - destruct (h !! br) as [ob|] eqn:Hbr; [|discriminate]. cbn in Hb.
    injection Hb as <-. prim_ops.
    simp_with ltac:(first [rewrite Hx | rewrite Hh | rewrite Hbr | rewrite Hrs
                         | rewrite Hfig | rewrite Hax]).
    unfold with_figs, bar_use; cbn. rewrite <- Hfin. reflexivity.
  - injection Hb as <-. prim_ops.
    simp_with ltac:(first [rewrite Hx | rewrite Hh | rewrite Hrs
                         | rewrite Hfig | rewrite Hax]).
    unfold with_figs, bar_use; cbn. rewrite <- Hfin. reflexivity.
Qed.

Lemma plt_bar_fails (xr hr : nat) (width : float) (bottom : option nat)
    (label : option string) (ox oh : obj) (b : list float) :
  heap s !! xr = Some ox -> heap s !! hr = Some oh ->
  bottom_values s bottom = Some b ->
  bar_rectangles (as_float (value ox)) (as_float (value oh)) b width = None ->
  plt_bar xr hr width bottom label s =
    (Raise (ValueError (broadcast_message (as_float (value ox))
                          (as_float (value oh)) b)),
     with_figs (alter ensure_axes n (figs s))
       (with_uses (uses s ++ [bar_use s (xr :: hr :: option_list bottom)]) (tick s))).
Proof.
  intros Hx Hh Hb Hrs. unfold plt_bar. rewrite extern_quiet.
  erewrite bind_Ok by (apply gca_run; destruct s; eassumption).
  destruct s as [h fg g c u o ft k]; cbn in *; subst.
  destruct bottom as [br|]; cbn in Hb.
  - destruct (h !! br) as [ob|] eqn:Hbr; [|discriminate]. cbn in Hb.
    injection Hb as <-. prim_ops.
    simp_with ltac:(first [rewrite Hx | rewrite Hh | rewrite Hbr | rewrite Hrs]).
    reflexivity.
  - injection Hb as <-. prim_ops.
    simp_with ltac:(first [rewrite Hx | rewrite Hh | rewrite Hrs]).
    reflexivity.
Qed.
End Pyplot.

(** Two operands of different lengths, none of them 1, do not broadcast. *)
Lemma bar_rectangles_mismatch (x height bottom : list float) (width : float) :
  length x <> length height -> length x <> 1%nat -> length height <> 1%nat ->
  bar_rectangles x height bottom width = None.
Proof.
  intros Hne Hx Hh. unfold bar_rectangles, bar_operands.
  rewrite length_convert_dx. cbn.
  repeat case_decide; congruence.
Qed.

Ltac calc :=
  cbn -[bar_rectangles broadcast_message plot_mismatch last_open
        convert_dx convert_width
        linspace arange plt_show plt_figure plt_bar plt_title
        plt_xlabel plt_ylabel plt_legend plt_close plt_subplots ax_plot
        ax_legend ax_set_xlim ax_set_ylim ax_set_xticks ax_set_xlabel
        ax_set_ylabel ax_tick_params_y ax_twinx fig_tight_layout fig_suptitle
        ufunc np_array np_linspace np_arange one_sub py_print run_line_magic
        extern gca item index for_].

Lemma length_linspace (start stop : float) (num : nat) :
  length (linspace start stop num) = num.
Proof.
  unfold linspace.
  destruct (1 <? num)%nat; destruct (0 <? num - 1)%nat;
    try destruct (PrimFloat.eqb _ _);
    rewrite ?length_insert; repeat rewrite length_map; apply length_seq.
Qed.

Ltac look :=
  first [apply lookup_snoc | eassumption | (apply lookup_app_l_Some; look)].

Ltac side :=
  calc;
  first [ reflexivity | apply lookup_snoc | eassumption | look
        | discriminate
        | (rewrite ?length_map, ?length_linspace; first [assumption | congruence])
        | rewrite lookup_snoc; reflexivity
        | apply lookup_app_l_Some; eassumption
        | apply lookup_app_l_Some; apply lookup_app_l_Some; eassumption
        | match goal with
          | H : ?l !! ?i = Some _ |- context [?l !! ?i] => rewrite H; reflexivity
          end ].

Ltac flat :=
  cbv beta iota zeta delta
    [with_heap with_figs with_gcf with_cell with_uses with_stdout tick ticks
     Nat.iter nat_rect bar_use plot_use fresh ufunc_use
     heap figs gcf cell uses stdout fates ncalls tail].

Ltac tidy := flat; calc; rewrite ?alter_snoc; calc.

Ltac step lem := erewrite bind_Ok; [|eapply lem; side]; tidy.
Ltac last_step lem := etransitivity; [eapply lem; side|]; tidy.

Section Bars.
Variables (s : state) (years inner_pop outer_pop : nat).
Variables (oy oi oo : obj).
Hypothesis Hquiet : fates s = [].
Hypothesis Hy : heap s !! years = Some oy.
Hypothesis Hi : heap s !! inner_pop = Some oi.
Hypothesis Ho : heap s !! outer_pop = Some oo.

(** X12. In[27] for any years and any populations held as float arrays
    (as In[25] leaves them), all of one length: the cell succeeds and
    leaves one new, shown figure with the two series on one axes.  The
    bars of a year are centred on it; an 'inner' bar stands on 0, an
    'outer' bar stands on the 'inner' value of its year, and its height is
    the one [_convert_dx] makes of the 'outer' value: [(b0 + h) - b0] for
    the first finite 'inner' value [b0].  Earlier figures are only closed
    by [plt.show()]. *)
Theorem In27_stacks (li lo : list float) :
  value oi = F64 li -> value oo = F64 lo ->
  size (value oy) = length li ->
  length lo = length li ->
  exists ri ro,
    Forall2 (fun r xh =>
               rect_x r = PrimFloat.sub (fst xh)
                            (PrimFloat.div (convert_width 10 (as_float (value oy))) 2) /\
               rect_y r = PrimFloat.zero /\
               rect_width r = convert_width 10 (as_float (value oy)) /\
               rect_height r = PrimFloat.sub (PrimFloat.add 0 (snd xh)) 0)
            ri (zip (as_float (value oy)) li) /\
    Forall2 (fun r xbh =>
               rect_x r = PrimFloat.sub (fst xbh)
                            (PrimFloat.div (convert_width 10 (as_float (value oy))) 2) /\
               rect_y r = fst (snd xbh) /\
               rect_width r = convert_width 10 (as_float (value oy)) /\
               rect_height r = snd (snd xbh))
            ro (zip (as_float (value oy)) (zip li (convert_dx lo li))) /\
    In27 years inner_pop outer_pop s =
      (Ok tt,
       with_gcf None
         (with_figs
            (map with_closed (figs s) ++
             [bar_figure (cell s)
                [{| patches := ri; bar_label := Some "inner" |};
                 {| patches := ro; bar_label := Some "outer" |}]])
            (with_uses
               (uses s ++ [bar_use s [years; inner_pop];
                           bar_use s [years; outer_pop; inner_pop]])
               (ticks 8 s)))).
Proof.
  intros Hvi Hvo Hyi Hoi.
  assert (Hli : as_float (value oi) = li) by (rewrite Hvi; reflexivity).
  assert (Hlo : as_float (value oo) = lo) by (rewrite Hvo; reflexivity).
  destruct (bar_rectangles_default (as_float (value oy)) (as_float (value oi)) 10)
    as (ri & Hri & Hi10); [rewrite length_as_float, Hli; exact Hyi|].
  destruct (bar_rectangles_stacked (as_float (value oy)) (as_float (value oo))
              (as_float (value oi)) 10)
    as (ro & Hro & Ho10);
    [rewrite length_as_float, Hlo; congruence|rewrite Hli, Hlo; congruence|].
  exists ri, ro.
  split; [rewrite <- Hli; exact Hi10|].
  split; [rewrite <- Hli, <- Hlo; exact Ho10|].
  clear Hi10 Ho10 Hli Hlo Hvi Hvo Hyi Hoi li lo.
  destruct s as [h fg g c u o ft n]; cbn in Hquiet, Hy, Hi, Ho; subst ft.
  unfold In27.
  step plt_figure_run.
  step plt_bar_run.
  step plt_bar_run.
  unfold plt_title; step on_gca_run.
  unfold plt_xlabel; step on_gca_run.
  unfold plt_ylabel; step on_gca_run.
  unfold plt_legend; step on_gca_run.
  last_step plt_show_run.
  rewrite map_app, <- app_assoc. reflexivity.
Qed.

(** X13. In[27] with [years] and [inner_pop] of different lengths (none
    of them 1): the first [plt.bar] raises a ValueError; the new figure is
    left open and current, with an empty axes, and nothing is shown. *)
Theorem In27_mismatch :
  size (value oy) <> size (value oi) ->
  size (value oy) <> 1%nat -> size (value oi) <> 1%nat ->
  exists e,
    exn_class e = "ValueError" /\
    In27 years inner_pop outer_pop s =
      (Raise e,
       with_gcf (Some (length (figs s)))
         (with_figs (figs s ++ [ensure_axes (empty_figure (cell s))])
            (with_uses (uses s ++ [bar_use s [years; inner_pop]]) (ticks 2 s)))).
Proof.
  clear Ho. intros Hne Hy1 Hi1.
  assert (Hrs : bar_rectangles (as_float (value oy)) (as_float (value oi))
                  [PrimFloat.zero] 10 = None)
    by (apply bar_rectangles_mismatch; rewrite !length_as_float; assumption).
  eexists. split; cycle 1.
  { destruct s as [h fg g c u o ft n]; cbn in Hquiet, Hy, Hi; subst ft.
    unfold In27.
    step plt_figure_run.
    erewrite bind_Raise; [|eapply plt_bar_fails; side]; tidy.
    reflexivity. }
  reflexivity.
Qed.

(** X11. In[26] for any data of one length: [years - 5.0] and
    [years + 5.0] are two new arrays ([years] is not changed); the bars of
    a series are centred on them and stand on the baseline 0; their width
    is the one [_convert_dx] makes of 7: [(x0 + 7) - x0] for the first
    finite centre [x0] of the series. *)
Theorem In26_groups :
  size (value oy) = size (value oi) ->
  size (value oy) = size (value oo) ->
  let iyears := map (fun v => PrimFloat.sub v 5) (as_float (value oy)) in
  let oyears := map (fun v => PrimFloat.add v 5) (as_float (value oy)) in
  exists ri ro,
    Forall2 (fun r xh =>
               rect_x r = PrimFloat.sub (fst xh)
                            (PrimFloat.div (convert_width 7 iyears) 2) /\
               rect_y r = PrimFloat.zero /\
               rect_width r = convert_width 7 iyears /\
               rect_height r = PrimFloat.sub (PrimFloat.add 0 (snd xh)) 0)
            ri (zip iyears (as_float (value oi))) /\
    Forall2 (fun r xh =>
               rect_x r = PrimFloat.sub (fst xh)
                            (PrimFloat.div (convert_width 7 oyears) 2) /\
               rect_y r = PrimFloat.zero /\
               rect_width r = convert_width 7 oyears /\
               rect_height r = PrimFloat.sub (PrimFloat.add 0 (snd xh)) 0)
            ro (zip oyears (as_float (value oo))) /\
    In26 years inner_pop outer_pop s =
      (Ok (length (heap s), S (length (heap s))),
       with_gcf None
         (with_figs
            (map with_closed (figs s) ++
             [bar_figure (cell s)
                [{| patches := ri; bar_label := Some "inner" |};
                 {| patches := ro; bar_label := Some "outer" |}]])
            (with_heap (heap s ++ [fresh s iyears; fresh s oyears])
               (with_uses
                  (uses s ++ [ufunc_use s "subtract" years;
                              bar_use s [length (heap s); inner_pop];
                              ufunc_use s "add" years;
                              bar_use s [S (length (heap s)); outer_pop]])
                  (ticks 10 s))))).
Proof.
  intros Hyi Hyo iyears oyears.
  destruct (bar_rectangles_default iyears (as_float (value oi)) 7)
    as (ri & Hri & Hi7);
    [unfold iyears; rewrite length_map, !length_as_float; exact Hyi|].
  destruct (bar_rectangles_default oyears (as_float (value oo)) 7)
    as (ro & Hro & Ho7);
    [unfold oyears; rewrite length_map, !length_as_float; exact Hyo|].
  exists ri, ro. split; [exact Hi7|]. split; [exact Ho7|].
  clear Hi7 Ho7.
  subst iyears oyears.
  destruct s as [h fg g c u o ft n]; cbn in Hquiet, Hy, Hi, Ho; subst ft.
  unfold In26, array_sub, array_add.
  step plt_figure_run.
  step ufunc_run.
  step plt_bar_run.
  step ufunc_run.
  step plt_bar_run.
  unfold plt_title; step on_gca_run.
  unfold plt_xlabel; step on_gca_run.
  unfold plt_ylabel; step on_gca_run.
  unfold plt_legend; step on_gca_run.
  step plt_show_run.
  rewrite !length_app, !map_app, <- !app_assoc. cbn.
  rewrite Nat.add_1_r. reflexivity.
Qed.
End Bars.

(** ** Statements on an axes handle *)

Section AxesStatements.
Variables (s : state) (a : axref) (f : figure) (ax : axes).
Hypothesis Hquiet : fates s = [].
Hypothesis Hfig : figs s !! ax_fig a = Some f.
Hypothesis Hax : fig_axes f !! ax_idx a = Some ax.

Ltac axes_run :=
  destruct s as [h fg g c u o ft k]; cbn in *; subst; prim_ops;
  simp_with ltac:(first [rewrite Hfig | rewrite Hax]).

Lemma ax_set_xlim_run (lo hi : float) :
  ax_set_xlim a lo hi s =
    (Ok tt, with_figs (alter (on_xaxis (xgroup ax) (with_lim (Manual lo hi)))
                             (ax_fig a) (figs s)) (tick s)).
Proof. unfold ax_set_xlim. axes_run. reflexivity. Qed.

Lemma ax_set_ylim_run (lo hi : float) :
  ax_set_ylim a lo hi s =
    (Ok tt, with_figs (alter (on_yaxis (ygroup ax) (with_lim (Manual lo hi)))
                             (ax_fig a) (figs s)) (tick s)).
Proof. unfold ax_set_ylim. axes_run. reflexivity. Qed.

Lemma ax_legend_run :
  ax_legend a s =
    (Ok tt, with_figs (alter (on_axes (ax_idx a) with_own_legend)
                             (ax_fig a) (figs s)) (tick s)).
Proof. unfold ax_legend. axes_run. reflexivity. Qed.

Lemma ax_set_xlabel_run (t : string) (color : option string) :
  ax_set_xlabel a t color s =
    (Ok tt, with_figs (alter (on_axes (ax_idx a)
                                (with_xlabel {| txt := t; txt_color := color |}))
                             (ax_fig a) (figs s)) (tick s)).
Proof. unfold ax_set_xlabel. axes_run. reflexivity. Qed.

Lemma ax_set_ylabel_run (t : string) (color : option string) :
  ax_set_ylabel a t color s =
    (Ok tt, with_figs (alter (on_axes (ax_idx a)
                                (with_ylabel {| txt := t; txt_color := color |}))
                             (ax_fig a) (figs s)) (tick s)).
Proof. unfold ax_set_ylabel. axes_run. reflexivity. Qed.

Lemma ax_plot_run (xr yr : nat) (label color : option string) (ox oy : obj) :
  heap s !! xr = Some ox -> heap s !! yr = Some oy ->
  size (value ox) = size (value oy) ->
  ax_plot a xr yr label color s =
    (Ok tt,
     with_figs (alter (on_axes (ax_idx a)
                         (add_line (value ox) (value oy) label color))
                      (ax_fig a) (figs s))
       (with_uses (uses s ++ [plot_use s xr yr]) (tick s))).
Proof.
  intros Hx Hy Hsz. unfold ax_plot.
  destruct s as [h fg g c u o ft k]; cbn in *; subst; prim_ops.
  simp_with ltac:(first [rewrite Hx | rewrite Hy | rewrite Hfig | rewrite Hax
                       | rewrite decide_True by assumption]).
  reflexivity.
Qed.

Lemma ax_plot_fails (xr yr : nat) (label color : option string) (ox oy : obj) :
  heap s !! xr = Some ox -> heap s !! yr = Some oy ->
  size (value ox) <> size (value oy) ->
  ax_plot a xr yr label color s =
    (Raise (plot_mismatch (value ox) (value oy)),
     with_uses (uses s ++ [plot_use s xr yr]) (tick s)).
Proof.
  clear Hfig Hax. intros Hx Hy Hsz. unfold ax_plot.
  destruct s as [h fg g c u o ft k]; cbn in *; subst; prim_ops.
  simp_with ltac:(first [rewrite Hx | rewrite Hy
                       | rewrite decide_False by assumption]).
  reflexivity.
Qed.
End AxesStatements.

(** A figure that is made and closed leaves the open figure made last
    as it was. *)
Lemma last_open_snoc_closed (fs : list figure) (F : figure) :
  closed F = true -> last_open (fs ++ [F]) = last_open fs.
Proof.
  intros HF. unfold last_open.
  rewrite length_app. cbn [length]. rewrite List.seq_app, List.filter_app. cbn [seq List.filter].
  rewrite Nat.add_0_l, lookup_snoc, HF. cbn [negb]. rewrite app_nil_r.
  f_equal. apply List.filter_ext_in. intros i Hi%List.in_seq.
  rewrite lookup_app_l by lia. reflexivity.
Qed.

Section MoreStatements.
Variable s : state.
Hypothesis Hquiet : fates s = [].

Lemma py_print_run (args : list printed) :
  py_print args s = (Ok tt, with_stdout (stdout s ++ [args]) s).
Proof. reflexivity. Qed.

Lemma run_line_magic_run (name arg : string) :
  run_line_magic name arg s = (Ok tt, tick s).
Proof. unfold run_line_magic, extern. rewrite Hquiet. reflexivity. Qed.

Lemma plt_close_run (n : nat) (F : figure) :
  gcf s = Some n -> figs s !! n = Some F ->
  plt_close s =
    (Ok tt, with_gcf (last_open (alter with_closed n (figs s)))
              (with_figs (alter with_closed n (figs s)) (tick s))).
Proof.
  intros Hg Hf. unfold plt_close.
  destruct s as [h fg g c u o ft k]; cbn in *; subst; prim_ops.
  simp_with ltac:(rewrite Hf). reflexivity.
Qed.

Lemma plt_subplots_run (nrows ncols : nat) (sharex sharey : share) :
  plt_subplots nrows ncols sharex sharey s =
    (Ok (length (figs s),
         grid nrows ncols (fun r k =>
           {| ax_fig := length (figs s); ax_idx := (r * ncols + k)%nat |})),
     with_gcf (Some (length (figs s)))
       (with_figs (figs s ++ [subplots_figure (cell s) nrows ncols sharex sharey])
          (tick s))).
Proof.
  unfold plt_subplots, new_figure.
  destruct s as [h fg g c u o ft k]; cbn in *; subst; prim_ops.
  cbn -[grid]. rewrite lookup_snoc. cbn -[grid]. rewrite alter_snoc. reflexivity.
Qed.

Lemma plt_subplots_default_run :
  plt_subplots_default s =
    (Ok (length (figs s), {| ax_fig := length (figs s); ax_idx := 0 |}),
     with_gcf (Some (length (figs s)))
       (with_figs (figs s ++ [subplots_figure (cell s) 1 1 ShareNone ShareNone])
          (tick s))).
Proof.
  unfold plt_subplots_default.
  erewrite bind_Ok by (apply plt_subplots_run; exact Hquiet).
  reflexivity.
Qed.

End MoreStatements.

Lemma index_run {A} (l : list A) (i : nat) (v : A) (s : state) :
  l !! i = Some v -> index l i s = (Ok v, s).
Proof. intros Hv. unfold index. rewrite Hv. reflexivity. Qed.

Lemma item_run (g : list (list axref)) (r c : nat) (a : axref) (s : state) :
  grid_item g r c = Some a -> item g r c s = (Ok a, s).
Proof.
  unfold grid_item, item, index. intros Ha.
  destruct (g !! r) as [row|]; [|discriminate].
  unfold mbind, M_bind, bind, ret. cbn. rewrite Ha. reflexivity.
Qed.

(** ** The subplot cells *)

Section Subplots.
Variables (s : state) (x sin : nat) (ox osin : obj).
Hypothesis Hquiet : fates s = [].
Hypothesis Hx : heap s !! x = Some ox.
Hypothesis Hsin : heap s !! sin = Some osin.

(** X6. In[23] for any [x] and [sin] of one size: in the grid without
    shared axes only the bottom-left subplot gets limits and a line; the
    other five stay empty and on autoscaling.  What is printed is left
    open. *)
Theorem In23_bottom_left :
  size (value ox) = size (value osin) ->
  let F := on_axes 3 (add_line (value ox) (value osin) None None)
             (on_yaxis 3 (with_lim (Manual (-1.05) 1.05))
             (on_xaxis 3 (with_lim (Manual (-10) 10))
             (subplots_figure (cell s) 2 3 ShareNone ShareNone))) in
  (exists out,
     In23 x sin s =
       (Ok tt,
        with_gcf None
          (with_figs (map with_closed (figs s ++ [F]))
             (with_stdout out
                (with_uses (uses s ++ [plot_use s x sin]) (ticks 5 s)))))) /\
  map (fun ax => length (lines ax)) (fig_axes F) = [0; 0; 0; 1; 0; 0]%nat /\
  map (get_xlim F) (fig_axes F)
    = [Some Auto; Some Auto; Some Auto; Some (Manual (-10) 10); Some Auto; Some Auto] /\
  map (get_ylim F) (fig_axes F)
    = [Some Auto; Some Auto; Some Auto; Some (Manual (-1.05) 1.05); Some Auto; Some Auto].
Proof.
  intros Hsz F. split; [|repeat split].
  subst F.
  exists (stdout s ++ [[PAxesArray (subplots_handles (length (figs s)) 2 3)]]).
  destruct s as [h fg g c u o ft n]; cbn in Hquiet, Hx, Hsin; subst ft.
  unfold In23.
  step plt_subplots_run.
  step py_print_run.
  step item_run.
  step ax_set_xlim_run.
  step ax_set_ylim_run.
  step ax_plot_run.
  last_step plt_show_run.
  reflexivity.
Qed.

(** X7. In[23] with [x] and [sin] of different sizes: [plot] raises a
    ValueError after the limits were set; the figure has no line, stays
    open and current, and [plt.show()] is not reached. *)
Theorem In23_mismatch :
  size (value ox) <> size (value osin) ->
  let F := on_yaxis 3 (with_lim (Manual (-1.05) 1.05))
             (on_xaxis 3 (with_lim (Manual (-10) 10))
             (subplots_figure (cell s) 2 3 ShareNone ShareNone)) in
  (exists e out,
     exn_class e = "ValueError" /\
     In23 x sin s =
       (Raise e,
        with_gcf (Some (length (figs s)))
          (with_figs (figs s ++ [F])
             (with_stdout out
                (with_uses (uses s ++ [plot_use s x sin]) (ticks 4 s)))))) /\
  closed F = false /\
  Forall (fun ax => lines ax = []) (fig_axes F).
Proof.
  intros Hsz F. split; [|split; [reflexivity|repeat constructor]].
  subst F.
  exists (plot_mismatch (value ox) (value osin)),
         (stdout s ++ [[PAxesArray (subplots_handles (length (figs s)) 2 3)]]).
  split; cycle 1.
  { destruct s as [h fg g c u o ft n]; cbn in Hquiet, Hx, Hsin; subst ft.
    unfold In23.
    step plt_subplots_run.
    step py_print_run.
    step item_run.
    step ax_set_xlim_run.
    step ax_set_ylim_run.
    erewrite bind_Raise; [|eapply ax_plot_fails; side]; tidy.
    reflexivity. }
  reflexivity.
Qed.
End Subplots.

Section Demos.
Variable s : state.
Hypothesis Hquiet : fates s = [].

(** X9. In[19], from a state in which the current figure is the open
    figure made last (or no figure is open): one empty figure is made
    and closed again.  [plt.close()] leaves the earlier figures as they
    were, and the figure that was current before the cell is current
    again.  What is printed is left open. *)
Theorem In19_closes_its_figure :
  gcf s = last_open (figs s) ->
  exists out,
    In19 s =
      (Ok tt,
       with_figs (figs s ++ [with_closed (empty_figure (cell s))])
         (with_stdout out (ticks 3 s))).
Proof.
  intros Hgcf.
  exists (stdout s ++ [[PFigure (length (figs s));
                        PTypeOf (PFigure (length (figs s)))]]).
  destruct s as [h fg g c u o ft n]; cbn in Hquiet; cbn [gcf figs] in Hgcf;
    subst ft.
  unfold In19.
  step run_line_magic_run.
  step plt_figure_run.
  step py_print_run.
  last_step plt_close_run.
  rewrite last_open_snoc_closed by reflexivity.
  rewrite <- Hgcf. reflexivity.
Qed.

(** X10. In[20] from any state: [plt.subplots()] makes one figure with a
    single axes, and [plt.show()] closes every figure; no figure is
    current afterwards.  What is printed is left open. *)
Theorem In20_single_axes :
  exists out,
    In20 s =
      (Ok tt,
       with_gcf None
         (with_figs
            (map with_closed
               (figs s ++ [subplots_figure (cell s) 1 1 ShareNone ShareNone]))
            (with_stdout out (ticks 2 s)))).
Proof.
  exists (stdout s ++
          [[PFigure (length (figs s)); PTypeOf (PFigure (length (figs s)))];
           [PAxes {| ax_fig := length (figs s); ax_idx := 0 |};
            PTypeOf (PAxes {| ax_fig := length (figs s); ax_idx := 0 |})]]).
  destruct s as [h fg g c u o ft n]; cbn in Hquiet; subst ft.
  unfold In20.
  step plt_subplots_default_run.
  step py_print_run.
  step py_print_run.
  last_step plt_show_run.
  rewrite <- app_assoc. reflexivity.
Qed.

(** X8. In[22] from any state: without shared axes, [set_xlim] on
    [axes[1,1]] changes the x limits of that subplot only.  What is
    printed is left open. *)
Theorem In22_one_axes_only :
  let F := on_xaxis 4 (with_lim (Manual (-10) 10))
             (subplots_figure (cell s) 2 3 ShareNone ShareNone) in
  (exists out,
     In22 s =
       (Ok tt,
        with_gcf None
          (with_figs (map with_closed (figs s ++ [F]))
             (with_stdout out (ticks 3 s))))) /\
  map (get_xlim F) (fig_axes F)
    = [Some Auto; Some Auto; Some Auto; Some Auto; Some (Manual (-10) 10); Some Auto].
Proof.
  intros F. split; [|reflexivity]. subst F.
  exists (stdout s ++ [[PAxesArray (subplots_handles (length (figs s)) 2 3)]]).
  destruct s as [h fg g c u o ft n]; cbn in Hquiet; subst ft.
  unfold In22.
  step plt_subplots_run.
  step py_print_run.
  step item_run.
  step ax_set_xlim_run.
  last_step plt_show_run.
  reflexivity.
Qed.
End Demos.

(** ** The grid cell *)

Lemma bind_Ok' {A B} (m : M A) (k : A -> M B) (s s' : state) (a : A) :
  m s = (Ok a, s') -> bind m k s = k a s'.
Proof. apply bind_Ok. Qed.

Lemma bind_Raise' {A B} (m : M A) (k : A -> M B) (s s' : state) (e : exn) :
  m s = (Raise e, s') -> bind m k s = (Raise e, s').
Proof. apply bind_Raise. Qed.

Section GridStatements.
Variable s : state.
Hypothesis Hquiet : fates s = [].

Lemma np_linspace_run (start stop : float) (num : nat) :
  np_linspace start stop num s =
    (Ok (length (heap s)),
     with_heap (heap s ++ [fresh s (linspace start stop num)]) (tick s)).
Proof.
  unfold np_linspace. destruct s; cbn in *; subst. prim_ops. reflexivity.
Qed.

Lemma np_arange_run (start stop step : Z) :
  step <> 0%Z ->
  np_arange start stop step s =
    (Ok (length (heap s)),
     with_heap (heap s ++ [{| owner := cell s;
                              value := I64 (arange start stop step) |}]) (tick s)).
Proof.
  intros Hstep. unfold np_arange. destruct s; cbn in *; subst. prim_ops.
  rewrite decide_False by assumption. reflexivity.
Qed.

Lemma fig_suptitle_run (fig : nat) (t : string) (F : figure) :
  figs s !! fig = Some F ->
  fig_suptitle fig t s =
    (Ok tt, with_figs (alter (with_suptitle t) fig (figs s)) (tick s)).
Proof.
  intros Hf. unfold fig_suptitle. destruct s; cbn in *; subst. prim_ops.
  simp_with ltac:(rewrite Hf). reflexivity.
Qed.

Lemma ax_set_xticks_run (a : axref) (r : nat) (minor : bool)
    (f : figure) (ax : axes) (ot : obj) :
  figs s !! ax_fig a = Some f -> fig_axes f !! ax_idx a = Some ax ->
  heap s !! r = Some ot ->
  ax_set_xticks a r minor s =
    (Ok tt,
     with_figs
       (alter (on_xaxis (xgroup ax) (fun x =>
                 (if minor then with_minor (as_float (value ot))
                  else with_major (as_float (value ot)))
                   (with_lim (widen (as_float (value ot)) (lim x)) x)))
              (ax_fig a) (figs s))
       (with_uses (uses s ++ [ufunc_use s "set_xticks" r]) (tick s))).
Proof.
  intros Hf Ha Hr. unfold ax_set_xticks.
  destruct s as [h fg g c u o ft k]; cbn in *; subst; prim_ops.
  simp_with ltac:(first [rewrite Hf | rewrite Ha | rewrite Hr]).
  reflexivity.
Qed.
End GridStatements.

Ltac iteration :=
  cbv beta;
  step item_run; step index_run; step index_run; step index_run; step index_run;
  unfold one_sub; step ax_plot_run; last_step ax_legend_run; reflexivity.

Ltac iteration_fails :=
  cbv beta;
  step item_run; step index_run; step index_run; step index_run; step index_run;
  unfold one_sub;
  erewrite bind_Raise; [|eapply ax_plot_fails; side]; tidy;
  reflexivity.

Ltac loop3 :=
  erewrite bind_Ok;
  [|change (range 3) with [0; 1; 2]%nat; cbn [for_];
    do 3 (erewrite bind_Ok'; [|iteration]; tidy; cbn [for_]);
    reflexivity];
  tidy.

Section Grid.
Context `{Libm}.
Variables (s : state) (x : nat) (ox : obj).
Hypothesis Hquiet : fates s = [].
Hypothesis Hx : heap s !! x = Some ox.

Ltac run_In24_prefix :=
  unfold In24, np_sin, np_sinh, np_cos, np_cosh, np_tan, np_tanh;
  step np_linspace_run;
  do 6 step ufunc_run;
  step plt_subplots_run;
  step item_run; step ax_set_xlim_run;
  step item_run; step ax_set_ylim_run;
  step item_run; step ax_set_ylim_run;
  step item_run; step np_arange_run; step ax_set_xticks_run;
  step item_run; step np_arange_run; step ax_set_xticks_run.

(** X4. In[24] for any array [x] of 1000 elements: the cell succeeds,
    the six lines have the caller's [x] as abscissa and the six functions
    sampled on [t] as ordinate, each with its legend; all subplots share
    the x limits, each row its y limits; the figure stays open and
    current (the cell does not call [plt.show()]). *)
Theorem In24_plots_against_x :
  size (value ox) = 1000%nat ->
  let r := In24 x s in
  let t := linspace (-10) 10 1000 in
  let n := length (figs s) in
  let hp := length (heap s) in
  fst r = Ok (n,
              grid 2 3 (fun iy ix => {| ax_fig := n; ax_idx := (iy * 3 + ix)%nat |}),
              hp,
              [[hp + 2; hp + 4; hp + 6]; [hp + 1; hp + 3; hp + 5]]%nat,
              [["sinh"; "cosh"; "tanh"]; ["sin"; "cos"; "tan"]]) /\
  gcf (snd r) = Some n /\
  exists F,
    figs (snd r) = figs s ++ [F] /\
    closed F = false /\
    map lines (fig_axes F)
      = map (fun fl => [{| xdata := as_float (value ox); ydata := map (fst fl) t;
                           line_label := Some (snd fl); line_color := None |}])
            (zip (concat functions)
                 ["sinh"; "cosh"; "tanh"; "sin"; "cos"; "tan"]) /\
    map legend (fig_axes F)
      = map (fun l => Some [l]) ["sinh"; "cosh"; "tanh"; "sin"; "cos"; "tan"] /\
    Forall (fun ax => get_xlim F ax = Some (Manual (-10) 10)) (fig_axes F) /\
    map (get_ylim F) (fig_axes F)
      = replicate 3 (Some (Manual (-1.0e4) 1.0e4))
        ++ replicate 3 (Some (Manual (-2) 2)).
Proof.
  intros Hsz r t n hp. subst r t n hp.
  destruct s as [h fg g c u o ft n]; cbn in Hquiet, Hx; subst ft.
  match goal with
  | |- context [In24 x ?st] => eassert (Hrun : In24 x st = _)
  end.
  { run_In24_prefix.
    loop3.
    loop3.
    step fig_suptitle_run.
    step item_run. step ax_set_xlabel_run.
    step item_run. step ax_set_xlabel_run.
    step item_run. step ax_set_xlabel_run.
    step item_run. step ax_set_ylabel_run.
    step item_run. step ax_set_ylabel_run.
    reflexivity. }
  rewrite Hrun. clear Hrun. cbn [fst snd figs heap gcf].
  split.
  { unfold ret. cbn [fst]. rewrite !length_app. cbn [length].
    rewrite <- !Nat.add_assoc. reflexivity. }
  split; [reflexivity|].
  eexists. split; [reflexivity|].
  split; [reflexivity|].
  split; [reflexivity|].
  split; [reflexivity|].
  split; [|reflexivity].
  repeat constructor.
Qed.

(** X5. In[24] depends on the [x] of an earlier cell: if [x] does not
    have 1000 elements the first [one_sub] raises a ValueError and no
    subplot gets a line or a legend. *)
Theorem In24_stale_x :
  size (value ox) <> 1000%nat ->
  let r := In24 x s in
  (exists e, fst r = Raise e /\ exn_class e = "ValueError") /\
  gcf (snd r) = Some (length (figs s)) /\
  exists F,
    figs (snd r) = figs s ++ [F] /\
    closed F = false /\
    Forall (fun ax => lines ax = [] /\ legend ax = None) (fig_axes F).
Proof.
  intros Hsz r. subst r.
  destruct s as [h fg g c u o ft n]; cbn in Hquiet, Hx; subst ft.
  match goal with
  | |- context [In24 x ?st] => eassert (Hrun : In24 x st = _)
  end.
  { run_In24_prefix.
    erewrite bind_Raise;
      [|change (range 3) with [0; 1; 2]%nat; cbn [for_];
        erewrite bind_Raise'; [|iteration_fails];
        reflexivity].
    reflexivity. }
  rewrite Hrun. clear Hrun. cbn [fst snd figs heap gcf].
  split; [eexists; split; reflexivity|].
  split; [reflexivity|].
  eexists. split; [reflexivity|].
  split; [reflexivity|].
  repeat constructor.
Qed.
End Grid.

(** ** Closed instances *)

Lemma one_sub_effect_witness :
  fates demo_state = [] /\
  fst (one_sub demo_axes 0 1 "curve" demo_state) = Ok tt.
Proof.
  split; [reflexivity|].
  eapply (fun f ax ox oy H1 H2 H3 H4 H5 H6 =>
            proj1 (one_sub_effect demo_state demo_axes 0 1 "curve"
                     f ax ox oy H1 H2 H3 H4 H5 H6)); reflexivity.
Defined.

Lemma one_sub_mismatch_witness :
  fates demo_state = [] /\
  exists e, fst (one_sub demo_axes 0 2 "curve" demo_state) = Raise e /\
            exn_class e = "ValueError".
Proof.
  split; [reflexivity|].
  eapply (fun ox oy H1 H2 H3 H4 =>
            proj1 (one_sub_mismatch demo_state demo_axes 0 2 "curve"
                     ox oy H1 H2 H3 H4));
    try reflexivity.
  vm_compute. discriminate.
Defined.

Lemma one_sub_legend_raises_witness :
  fst (one_sub demo_axes 0 1 "curve"
         (with_fates [None; Some (ValueError "boom")] demo_state))
  = Raise (ValueError "boom").
Proof.
  eapply (fun f ax ox oy H1 H2 H3 H4 H5 H6 =>
            proj1 (one_sub_legend_raises
                     (with_fates [None; Some (ValueError "boom")] demo_state)
                     demo_axes 0 1 "curve" f ax ox oy H1 H2 H3 H4
                     (ValueError "boom") [] H5 H6)); reflexivity.
Defined.

Lemma In27_stacks_witness :
  fates demo_bars = [] /\ fst (In27 0 3 3 demo_bars) = Ok tt.
Proof.
  split; [vm_compute; reflexivity|].
  lazymatch eval vm_compute in (heap demo_bars !! 0%nat, heap demo_bars !! 3%nat) with
  | (Some ?oy, Some ?oi) =>
      let vals := eval vm_compute in (as_float (value oi)) in
      destruct (In27_stacks demo_bars 0 3 3 oy oi oi) with (li := vals) (lo := vals)
        as (ri & ro & _ & _ & Hrun);
        [vm_compute; reflexivity ..|]
  end.
  rewrite Hrun. reflexivity.
Defined.

Lemma In27_mismatch_witness :
  fates demo_bars = [] /\
  exists e, exn_class e = "ValueError" /\
            fst (In27 0 4 3 demo_bars) = Raise e.
Proof.
  split; [vm_compute; reflexivity|].
  lazymatch eval vm_compute in (heap demo_bars !! 0%nat, heap demo_bars !! 4%nat) with
  | (Some ?oy, Some ?oi) =>
      destruct (In27_mismatch demo_bars 0 4 3 oy oi) as (e & He & Hrun);
        [vm_compute; reflexivity ..| | | |]
  end.
  1-3: vm_compute; discriminate.
  exists e. split; [exact He|]. rewrite Hrun. reflexivity.
Defined.

Lemma In26_groups_witness :
  fates demo_state = [] /\ fst (In26 0 1 1 demo_state) = Ok (3%nat, 4%nat).
Proof.
  split; [reflexivity|].
  destruct (In26_groups demo_state 0 1 1 _ _ _ eq_refl eq_refl eq_refl eq_refl
              eq_refl eq_refl) as (ri & ro & _ & _ & Hrun).
  rewrite Hrun. reflexivity.
Defined.

Lemma In23_bottom_left_witness :
  fates demo_state = [] /\ fst (In23 0 1 demo_state) = Ok tt.
Proof.
  split; [reflexivity|].
  destruct (In23_bottom_left demo_state 0 1 _ _ eq_refl eq_refl eq_refl eq_refl)
    as ((out & Hrun) & _).
  rewrite Hrun. reflexivity.
Defined.

Lemma In23_mismatch_witness :
  fates demo_state = [] /\
  exists e, exn_class e = "ValueError" /\ fst (In23 0 2 demo_state) = Raise e.
Proof.
  split; [reflexivity|].
  edestruct (In23_mismatch demo_state 0 2) as ((e & out & He & Hrun) & _);
    [reflexivity..| |exists e; split; [exact He|rewrite Hrun; reflexivity]].
  vm_compute. discriminate.
Defined.

Lemma In19_closes_its_figure_witness :
  fates demo_state = [] /\ gcf demo_state = last_open (figs demo_state) /\
  fst (In19 demo_state) = Ok tt.
Proof.
  split; [reflexivity|]. split; [reflexivity|].
  destruct (In19_closes_its_figure demo_state eq_refl eq_refl) as (out & Hrun).
  rewrite Hrun. reflexivity.
Defined.

Lemma In20_single_axes_witness :
  fates demo_state = [] /\ fst (In20 demo_state) = Ok tt.
Proof.
  split; [reflexivity|].
  destruct (In20_single_axes demo_state eq_refl) as (out & Hrun).
  rewrite Hrun. reflexivity.
Defined.

Lemma In22_one_axes_only_witness :
  fates demo_state = [] /\ fst (In22 demo_state) = Ok tt.
Proof.
  split; [reflexivity|].
  destruct (In22_one_axes_only demo_state eq_refl) as ((out & Hrun) & _).
  rewrite Hrun. reflexivity.
Defined.

Lemma In24_plots_against_x_witness :
  fates demo_samples = [] /\
  gcf (snd (@In24 sample_libm 0 demo_samples)) = Some 0%nat.
Proof.
  split; [reflexivity|].
  eapply (fun ox H1 H2 H3 =>
            proj1 (proj2 (@In24_plots_against_x sample_libm demo_samples 0
                            ox H1 H2 H3))); reflexivity.
Defined.

Lemma In24_stale_x_witness :
  fates demo_state = [] /\
  exists e, fst (@In24 sample_libm 0 demo_state) = Raise e /\
            exn_class e = "ValueError".
Proof.
  split; [reflexivity|].
  eapply (fun ox H1 H2 H3 =>
            proj1 (@In24_stale_x sample_libm demo_state 0 ox H1 H2 H3));
    try reflexivity.
  vm_compute. discriminate.
Defined.
